(** * AutoMakerBackend: the printer/camera relay, embedded and verified

    Shallow embedding of [Printer-Controller/app/main.py] (and of the older
    [python/app/main.py], whose printer endpoints are textually the same):
    Python [bytes] are lists of [byte], Python [str] is [string], integers
    are [Z], and the endpoints run in a small state-and-exception monad
    whose state records the HTTP requests sent upstream and what was
    printed or logged. *)

From Stdlib Require Import ZArith NArith String Ascii Strings.Byte Bool List Lia.
From Stdlib Require Import DecimalString SpecFloat.
Import ListNotations.
Open Scope Z_scope.

(** ** Python [bytes] *)

Module PyBytes.

Definition bytes := list byte.

(** [buf.startswith(sub)] *)
Fixpoint startswith (sub buf : bytes) : bool :=
  match sub, buf with
  | [], _ => true
  | _ :: _, [] => false
  | a :: sub', b :: buf' => Byte.eqb a b && startswith sub' buf'
  end.

(** [buf.find(sub)] scanning from offset [i]: lowest index of an occurrence,
    [-1] when there is none. *)
Fixpoint find_from (sub buf : bytes) (i : Z) : Z :=
  if startswith sub buf then i
  else match buf with
       | [] => -1
       | _ :: buf' => find_from sub buf' (i + 1)
       end.

Definition find (buf sub : bytes) : Z := find_from sub buf 0.

(** [sub in buf] *)
Definition contains (sub buf : bytes) : bool := negb (find buf sub =? -1).

(** Normalisation of a slice index against a length, as Python does it:
    negative indices count from the end, everything is clamped. *)
Definition clamp (len i : Z) : Z :=
  if i <? 0 then Z.max (i + len) 0 else Z.min i len.

(** [buf[lo:hi]] *)
Definition slice (buf : bytes) (lo hi : Z) : bytes :=
  let len := Z.of_nat (length buf) in
  let lo' := clamp len lo in
  let hi' := clamp len hi in
  firstn (Z.to_nat (hi' - lo')) (skipn (Z.to_nat lo') buf).

(** [buf[lo:]] *)
Definition slice_from (buf : bytes) (lo : Z) : bytes :=
  skipn (Z.to_nat (clamp (Z.of_nat (length buf)) lo)) buf.

(** Index of the first occurrence as an optional natural number; used only
    to reason about [find]. *)
Fixpoint index_of (sub buf : bytes) : option nat :=
  if startswith sub buf then Some 0%nat
  else match buf with
       | [] => None
       | _ :: buf' => option_map S (index_of sub buf')
       end.

End PyBytes.
Import PyBytes.

(** ** The frame extractor: the loop of [get_camera_frame] *)

(** JPEG start-of-image and end-of-image markers, [b'\xff\xd8'] and
    [b'\xff\xd9']. *)
Definition SOI : bytes := [xff; xd8].
Definition EOI : bytes := [xff; xd9].

(** How the [for chunk in response.iter_content(...)] loop ends: by the
    [return frame] inside it, with the local [buffer] as it was last
    assigned, or by running out of chunks. *)
Inductive scan : Type :=
| Emitted (frame : bytes) (buffer : bytes)
| Exhausted (buffer : bytes).

(** Lines 78-91.  [buffer] is the accumulator on entry to the iteration. *)
Fixpoint iter_content_loop (delimiter buffer : bytes) (chunks : list bytes)
  : scan :=
  match chunks with
  | [] => Exhausted buffer
  | chunk :: rest =>
      let buffer := buffer ++ chunk in
      if contains delimiter buffer then
        let frame_start := find buffer SOI in
        let frame_end := find buffer EOI in
        if negb (frame_start =? -1) && negb (frame_end =? -1) then
          let frame := slice buffer frame_start (frame_end + 2) in
          let buffer := slice_from buffer (frame_end + 2) in
          Emitted frame buffer
        else iter_content_loop delimiter buffer rest
      else iter_content_loop delimiter buffer rest
  end.

(** The test that makes an iteration return. *)
Definition ready (delimiter buffer : bytes) : bool :=
  contains delimiter buffer
  && negb (find buffer SOI =? -1) && negb (find buffer EOI =? -1).

(** A complete JPEG span in the sense of the specification: a start marker
    at [s] and an end marker at [e] with [s < e]. *)
Definition complete_span (buf : bytes) (s e : nat) : Prop :=
  (s < e)%nat /\
  startswith SOI (skipn s buf) = true /\
  startswith EOI (skipn e buf) = true.

Definition is_frame (f : bytes) : Prop :=
  startswith SOI f = true /\ startswith (rev EOI) (rev f) = true.

(** "--frame" *)
Definition delim_frame : bytes := [x2d; x2d; x66; x72; x61; x6d; x65].

(** ** Python [str]

    Text is modelled over the code points U+0000..U+00FF, one [ascii] per
    code point. *)

Module PyStr.
Local Open Scope string_scope.

Definition in_range (lo hi n : N) : bool := ((lo <=? n) && (n <=? hi))%N.

(** [c.lower()]: A-Z and the upper-case letters of the Latin-1 supplement
    (U+00C0..U+00DE but the multiplication sign U+00D7) move up by 32. *)
Definition lower_char (c : ascii) : ascii :=
  let n := N_of_ascii c in
  if in_range 65 90 n || (in_range 192 222 n && negb (n =? 215)%N)
  then ascii_of_N (n + 32) else c.

(** [s.lower()] *)
Fixpoint lower (s : string) : string :=
  match s with
  | EmptyString => EmptyString
  | String c s' => String (lower_char c) (lower s')
  end.

(** [c.isspace()] *)
Definition isspace (c : ascii) : bool :=
  let n := N_of_ascii c in
  in_range 9 13 n || in_range 28 32 n || (n =? 133)%N || (n =? 160)%N.

Fixpoint lstrip (s : string) : string :=
  match s with
  | EmptyString => EmptyString
  | String c s' => if isspace c then lstrip s' else s
  end.

Fixpoint rstrip (s : string) : string :=
  match s with
  | EmptyString => EmptyString
  | String c s' =>
      match rstrip s' with
      | EmptyString => if isspace c then EmptyString else String c EmptyString
      | r => String c r
      end
  end.

(** [s.strip()] *)
Definition strip (s : string) : string := rstrip (lstrip s).

(** [s.startswith(sub)] *)
Fixpoint startswith (sub s : string) : bool :=
  match sub, s with
  | EmptyString, _ => true
  | String _ _, EmptyString => false
  | String a sub', String b s' => Ascii.eqb a b && startswith sub' s'
  end.

(** [sub in s] *)
Fixpoint str_in (sub s : string) : bool :=
  startswith sub s
  || match s with
     | EmptyString => false
     | String _ s' => str_in sub s'
     end.

(** [s.split(sep)] for a non-empty [sep]: [skip] counts the characters of a
    separator just matched that are still to be passed over, [cur] is the
    current piece, reversed. *)
Fixpoint split_go (sep s : string) (skip : nat) (cur : list ascii)
  : list string :=
  match s with
  | EmptyString => [string_of_list_ascii (rev cur)]
  | String c s' =>
      match skip with
      | S k => split_go sep s' k cur
      | O =>
          if startswith sep s
          then string_of_list_ascii (rev cur)
               :: split_go sep s' (String.length sep - 1) []
          else split_go sep s' 0 (c :: cur)
      end
  end.

Definition split (s sep : string) : list string := split_go sep s 0 [].

(** [sep.join(items)] on strings *)
Fixpoint join (sep : string) (items : list string) : string :=
  match items with
  | [] => EmptyString
  | [x] => x
  | x :: rest => x ++ sep ++ join sep rest
  end.

(** UTF-8 of one code point below 256. *)
Definition encode_char (c : ascii) : bytes :=
  let n := N_of_ascii c in
  if (n <? 128)%N then [byte_of_ascii c]
  else [byte_of_ascii (ascii_of_N (192 + n / 64));
        byte_of_ascii (ascii_of_N (128 + n mod 64))].

(** [s.encode()] *)
Fixpoint encode (s : string) : bytes :=
  match s with
  | EmptyString => []
  | String c s' => (encode_char c ++ encode s')%list
  end.

(** [str(n)] for an [int] *)
Definition str_int (n : Z) : string := NilZero.string_of_int (Z.to_int n).

End PyStr.

(** ** Values, exceptions and HTTP objects *)

(** A parsed JSON document, i.e. the Python value [response.json()] returns
    and the dicts the endpoints build.  A dict keeps its items in insertion
    order. *)
#[warnings="-register-all"]
Inductive json : Type :=
| JNone
| JBool (b : bool)
| JInt (n : Z)
| JFloat (x : spec_float)
| JStr (s : string)
| JList (items : list json)
| JDict (items : list (string * json)).

(** The subclasses of [requests.exceptions.RequestException] that matter. *)
Inductive requests_kind : Type :=
| ConnectionError
| ConnectTimeout
| ReadTimeout
| Timeout
| ChunkedEncodingError
| JSONDecodeError
| MissingSchema
| OtherRequestError.

(** [issubclass(k, requests.exceptions.Timeout)] *)
Definition is_Timeout (k : requests_kind) : bool :=
  match k with
  | ConnectTimeout | ReadTimeout | Timeout => true
  | _ => false
  end.

(** Exceptions; every one is a subclass of [Exception]. *)
Inductive exn : Type :=
| RequestException (kind : requests_kind) (msg : string)
| HTTPException (status_code : Z) (detail : string)
| KeyError (key : string)
| TypeError (msg : string)
| AttributeError (msg : string)
| ValueError (msg : string)
| ValidationError (msg : string)
| Exception (msg : string).

(** [isinstance(e, requests.exceptions.RequestException)] *)
Definition is_RequestException (e : exn) : bool :=
  match e with
  | RequestException _ _ => true
  | _ => false
  end.

Record request : Type := mk_request {
  method : string;
  url : string;
  headers : list (string * string);
  json_payload : option json;
  stream : bool;
  timeout : option Z
}.

(** A [requests.Response]: the status code, the one header the code reads,
    the chunks [iter_content] yields followed by the exception that ends the
    iteration (if any), and what [.json()] does. *)
Record response : Type := mk_response {
  status_code : Z;
  content_type : option string;
  iter_content : list bytes;
  iter_error : option exn;
  json_result : exn + json
}.

(** What one call of [requests.get] / [requests.post] does. *)
Inductive reply : Type :=
| Responds (r : response)
| Fails (kind : requests_kind) (msg : string).

Inductive event : Type :=
| Print (line : string)
| LogInfo (line : string)
| LogWarning (line : string)
| LogError (line : string).

(** The state threaded through an endpoint: requests sent so far (oldest
    first) and console output. *)
Record world : Type := mk_world {
  sent : list request;
  console : list event
}.

(** [class PrinterState(BaseModel)] *)
Record PrinterState : Type := mk_PrinterState {
  state : string;
  temperature : list (string * json)
}.

(** [class MovementControl(BaseModel)] *)
Record MovementControl : Type := mk_MovementControl {
  x : option spec_float;
  y : option spec_float;
  z : option spec_float;
  e : option spec_float;
  speed : option spec_float
}.

(** [StreamingResponse(content, media_type=...)]; its status code defaults
    to 200. *)
Record StreamingResponse : Type := mk_StreamingResponse {
  content : list bytes * option exn;
  media_type : string;
  response_status : Z
}.

(** What lies outside the repository: the module constants (blanked in one
    source file, set in the other), library behaviour that is not modelled
    (float formatting, [repr] of a dict, pydantic validation, TwiML
    rendering), and the upstream servers, which answer a request knowing the
    requests sent before it. *)
Record Env : Type := mk_Env {
  OCTOPRINT_API_KEY : string;
  OCTOPRINT_URL : string;
  OCTOPRINT_WEBCAM_URL : string;
  str_float : spec_float -> string;
  repr_dict : list (string * json) -> string;
  PrinterState_init : json -> json -> exn + PrinterState;
  twiml_str : list string -> string;
  upstream : list request -> request -> reply
}.

(** ** The state-and-exception monad *)

Inductive result (A : Type) : Type :=
| Ret (a : A)
| Raise (e : exn).
Arguments Ret {A} a.
Arguments Raise {A} e.

Definition M (A : Type) : Type := world -> result A * world.

Definition ret {A} (a : A) : M A := fun w => (Ret a, w).

Definition raise {A} (e : exn) : M A := fun w => (Raise e, w).

Definition bind {A B} (c : M A) (k : A -> M B) : M B :=
  fun w =>
    match c w with
    | (Ret a, w') => k a w'
    | (Raise e, w') => (Raise e, w')
    end.

(** [try: c  except ...: handler]; the handler returns [None] for an
    exception no [except] clause matches, which is then re-raised.  Effects
    of [c] before the exception stay. *)
Definition try_except {A} (c : M A) (handler : exn -> option (M A)) : M A :=
  fun w =>
    match c w with
    | (Ret a, w') => (Ret a, w')
    | (Raise e, w') =>
        match handler e with
        | Some h => h w'
        | None => (Raise e, w')
        end
    end.

Definition lift {A} (r : exn + A) : M A :=
  match r with
  | inl e => raise e
  | inr a => ret a
  end.

Definition emit (ev : event) : M unit :=
  fun w => (Ret tt, mk_world (sent w) (console w ++ [ev])).

Declare Scope py_scope.
Delimit Scope py_scope with py.
Notation "x <- c ;; k" := (bind c (fun x => k))
  (at level 61, c at next level, right associativity) : py_scope.
Notation "c ;; k" := (bind c (fun _ => k))
  (at level 61, right associativity) : py_scope.

(** The status a FastAPI route answers with: 200 for a returned value, the
    exception's code for an [HTTPException], 500 for any other exception. *)
Definition http_status {A} (r : result A) : Z :=
  match r with
  | Ret _ => 200
  | Raise (HTTPException c _) => c
  | Raise _ => 500
  end.

(** [str(e)] *)
Definition str_exn (e : exn) : string :=
  match e with
  | RequestException _ msg => msg
  | HTTPException c d => (PyStr.str_int c ++ ": " ++ d)%string
  | KeyError k => ("'" ++ k ++ "'")%string
  | TypeError msg | AttributeError msg | ValueError msg
  | ValidationError msg | Exception msg => msg
  end.

(** ** Dynamic operations on parsed JSON *)

Fixpoint assoc (k : string) (d : list (string * json)) : option json :=
  match d with
  | [] => None
  | (k', v) :: d' => if String.eqb k' k then Some v else assoc k d'
  end.

(** [type(v).__name__] *)
Definition type_name (v : json) : string :=
  match v with
  | JNone => "NoneType"
  | JBool _ => "bool"
  | JInt _ => "int"
  | JFloat _ => "float"
  | JStr _ => "str"
  | JList _ => "list"
  | JDict _ => "dict"
  end.

(** [v[key]] with a [str] key *)
Definition getitem (v : json) (key : string) : exn + json :=
  match v with
  | JDict d =>
      match assoc key d with
      | Some a => inr a
      | None => inl (KeyError key)
      end
  | JList _ => inl (TypeError "list indices must be integers or slices, not str")
  | JStr _ => inl (TypeError "string indices must be integers, not 'str'")
  | _ => inl (TypeError ("'" ++ type_name v
                          ++ "' object is not subscriptable")%string)
  end.

Definition is_str (k : string) (v : json) : bool :=
  match v with
  | JStr s => String.eqb s k
  | _ => false
  end.

(** [key in v] with a [str] key *)
Definition py_in (key : string) (v : json) : exn + bool :=
  match v with
  | JDict d => inr (existsb (fun kv => String.eqb (fst kv) key) d)
  | JList l => inr (existsb (is_str key) l)
  | JStr s => inr (PyStr.str_in key s)
  | _ => inl (TypeError ("argument of type '" ++ type_name v
                          ++ "' is not iterable")%string)
  end.

Fixpoint chars (s : string) : list json :=
  match s with
  | EmptyString => []
  | String c s' => JStr (String c EmptyString) :: chars s'
  end.

(** The items [for file in v] visits. *)
Definition py_iter (v : json) : exn + list json :=
  match v with
  | JList l => inr l
  | JDict d => inr (map (fun kv => JStr (fst kv)) d)
  | JStr s => inr (chars s)
  | _ => inl (TypeError ("'" ++ type_name v
                          ++ "' object is not iterable")%string)
  end.

(** [[file['name'] for file in items]] *)
Fixpoint names_of (items : list json) : exn + list json :=
  match items with
  | [] => inr []
  | file :: rest =>
      match getitem file "name" with
      | inl e => inl e
      | inr n =>
          match names_of rest with
          | inl e => inl e
          | inr ns => inr (n :: ns)
          end
      end
  end.

Fixpoint all_str (items : list json) : option (list string) :=
  match items with
  | [] => Some []
  | JStr s :: rest => option_map (cons s) (all_str rest)
  | _ :: _ => None
  end.

(** The message of the [TypeError] that [join] raises at the first item
    that is not a [str], [i] being the index of the head of [items]. *)
Fixpoint join_error (i : Z) (items : list json) : string :=
  match items with
  | [] => EmptyString
  | JStr _ :: rest => join_error (i + 1) rest
  | v :: _ =>
      ("sequence item " ++ PyStr.str_int i ++ ": expected str instance, "
       ++ type_name v ++ " found")%string
  end.

(** [sep.join(v)]: the items of [v] are those iteration visits. *)
Definition py_join (sep : string) (v : json) : exn + string :=
  match py_iter v with
  | inr l =>
      match all_str l with
      | Some ss => inr (PyStr.join sep ss)
      | None => inl (TypeError (join_error 0 l))
      end
  | inl _ => inl (TypeError "can only join an iterable")
  end.

(** ** The endpoints *)

Section Endpoints.

Variable env : Env.

Local Open Scope py_scope.
Local Open Scope string_scope.

(** [requests.get(...)] / [requests.post(...)]: the request is recorded
    whatever the outcome. *)
Definition requests_send (req : request) : M response :=
  fun w =>
    let w' := mk_world (sent w ++ [req]) (console w) in
    match upstream env (sent w) req with
    | Responds r => (Ret r, w')
    | Fails k msg => (Raise (RequestException k msg), w')
    end.

Definition requests_get (url : string) (headers : list (string * string))
  (stream : bool) (timeout : option Z) : M response :=
  requests_send (mk_request "GET" url headers None stream timeout).

Definition requests_post (url : string) (headers : list (string * string))
  (payload : json) : M response :=
  requests_send (mk_request "POST" url headers (Some payload) false None).

(** [HEADERS = {"X-Api-Key": OCTOPRINT_API_KEY}] *)
Definition HEADERS : list (string * string) :=
  [("X-Api-Key", OCTOPRINT_API_KEY env)].

(** [response.headers['Content-Type']]; the header dict is case-insensitive
    and raises [KeyError] on the lower-cased name. *)
Definition header_content_type (r : response) : M string :=
  match content_type r with
  | Some v => ret v
  | None => raise (KeyError "content-type")
  end.

(** Lines 59-94. *)
Definition get_camera_frame : M (option bytes) :=
  try_except
    (response <- requests_get (OCTOPRINT_WEBCAM_URL env) [] true None ;;
     if negb (status_code response =? 200)%Z then
       raise (Exception ("Unable to connect to the camera stream. Status code: "
                         ++ PyStr.str_int (status_code response)))
     else
       ct <- header_content_type response ;;
       let boundary := last (PyStr.split ct "boundary=") EmptyString in
       let delimiter := "--" ++ boundary in
       match iter_content_loop (PyStr.encode delimiter) []
               (iter_content response) with
       | Emitted frame _ => ret (Some frame)
       | Exhausted _ =>
           match iter_error response with
           | Some err => raise err
           | None => ret None
           end
       end)
    (fun err =>
       Some (emit (Print ("Error fetching frame: " ++ str_exn err)) ;;
             ret None)).

(** [except requests.exceptions.RequestException as e:
       raise HTTPException(status_code=500, detail=str(e))] *)
Definition request_error_handler {A} (err : exn) : option (M A) :=
  if is_RequestException err
  then Some (raise (HTTPException 500 (str_exn err)))
  else None.

(** [GET /printer] *)
Definition get_printer_status : M PrinterState :=
  try_except
    (response <- requests_get (OCTOPRINT_URL env ++ "/printer") HEADERS
                   false None ;;
     if negb (status_code response =? 200)%Z then
       raise (HTTPException (status_code response)
                "Failed to fetch data from OctoPrint")
     else
       data <- lift (json_result response) ;;
       st <- lift (getitem data "state") ;;
       printer_state <- lift (getitem st "text") ;;
       temperatures <- lift (getitem data "temperature") ;;
       lift (PrinterState_init env printer_state temperatures))
    request_error_handler.

(** [GET /files] *)
Definition list_files : M json :=
  try_except
    (response <- requests_get (OCTOPRINT_URL env ++ "/files") HEADERS
                   false None ;;
     if negb (status_code response =? 200)%Z then
       raise (HTTPException (status_code response)
                "Failed to fetch file list from OctoPrint")
     else
       data <- lift (json_result response) ;;
       has_files <- lift (py_in "files" data) ;;
       if has_files then
         files <- lift (getitem data "files") ;;
         items <- lift (py_iter files) ;;
         names <- lift (names_of items) ;;
         ret (JDict [("files", JList names)])
       else raise (HTTPException 404 "No files found"))
    request_error_handler.

(** [gcode_command += f" X{movement.x}"] when the field is not [None] *)
Definition add_word (letter : string) (v : option spec_float)
  (gcode_command : string) : string :=
  match v with
  | Some d => gcode_command ++ " " ++ letter ++ str_float env d
  | None => gcode_command
  end.

(** Lines 236-250: the G-code line built from the request body. *)
Definition gcode_of (movement : MovementControl) : string :=
  let gcode_command := "G0" in
  let gcode_command := add_word "X" (x movement) gcode_command in
  let gcode_command := add_word "Y" (y movement) gcode_command in
  let gcode_command := add_word "Z" (z movement) gcode_command in
  let gcode_command := add_word "E" (e movement) gcode_command in
  add_word "F" (speed movement) gcode_command.

(** [POST /printer/move] *)
Definition move_printer (movement : MovementControl) : M json :=
  let gcode_command := gcode_of movement in
  if (String.length gcode_command =? 2)%nat then
    raise (HTTPException 400 "No movement axis specified")
  else
    try_except
      (response <- requests_post (OCTOPRINT_URL env ++ "/printer/command")
                     HEADERS
                     (JDict [("commands", JList [JStr gcode_command])]) ;;
       if negb (status_code response =? 204)%Z then
         raise (HTTPException (status_code response) "Failed to move printer")
       else
         ret (JDict [("message", JStr ("Sent command: " ++ gcode_command))]))
      request_error_handler.

(** [form_data.get(key)]: the last value submitted under [key]. *)
Fixpoint form_get (key : string) (form_data : list (string * string))
  : option string :=
  match form_data with
  | [] => None
  | (k, v) :: rest =>
      match form_get key rest with
      | Some v' => Some v'
      | None => if String.eqb k key then Some v else None
      end
  end.

Definition help_message : string :=
  "Send 'status' to get printer status or 'files' to list available files.".

(** [POST /whatsapp_webhook]; the value is [str(response)] of the
    [MessagingResponse] holding the one reply. *)
Definition whatsapp_webhook (form_data : list (string * string)) : M string :=
  match form_get "Body" form_data with
  | None =>
      raise (AttributeError "'NoneType' object has no attribute 'lower'")
  | Some body =>
      let incoming_msg := PyStr.strip (PyStr.lower body) in
      if PyStr.str_in "status" incoming_msg then
        printer_status <- get_printer_status ;;
        let reply := "Printer Status: " ++ state printer_status
                     ++ String "010" "Temperatures: "
                     ++ repr_dict env (temperature printer_status) in
        ret (twiml_str env [reply])
      else if PyStr.str_in "files" incoming_msg then
        files <- list_files ;;
        names <- lift (getitem files "files") ;;
        joined <- lift (py_join ", " names) ;;
        ret (twiml_str env ["Available Files: " ++ joined])
      else
        ret (twiml_str env [help_message])
  end.

(** [GET /camera/status] *)
Definition get_camera_status : M json :=
  try_except
    (response <- requests_get (OCTOPRINT_WEBCAM_URL env) HEADERS true
                   (Some 5%Z) ;;
     if (status_code response =? 200)%Z then
       emit (LogInfo "Camera is online") ;;
       ret (JDict [("camera_status", JStr "online")])
     else
       emit (LogWarning ("Camera returned non-200 status code: "
                         ++ PyStr.str_int (status_code response))) ;;
       ret (JDict [("camera_status", JStr "offline");
                   ("status_code", JInt (status_code response))]))
    (fun err =>
       match err with
       | RequestException k msg =>
           if is_Timeout k then
             Some (emit (LogError "Connection to the camera stream timed out") ;;
                   ret (JDict [("camera_status", JStr "offline");
                               ("error", JStr "Connection timed out")]))
           else
             Some (emit (LogError ("Error connecting to the camera stream: "
                                   ++ str_exn err)) ;;
                   ret (JDict [("camera_status", JStr "offline");
                               ("error", JStr (str_exn err))]))
       | _ => None
       end).

(** [GET /camera/stream] *)
Definition stream_camera : M StreamingResponse :=
  try_except
    (response <- requests_get (OCTOPRINT_WEBCAM_URL env) [] true None ;;
     if negb (status_code response =? 200)%Z then
       raise (HTTPException 503 "Camera stream is not available")
     else
       ret (mk_StreamingResponse
              (iter_content response, iter_error response)
              "multipart/x-mixed-replace; boundary=frame" 200))
    (fun err =>
       if is_RequestException err then
         Some (raise (HTTPException 500
                        ("Error connecting to the camera stream: "
                         ++ str_exn err)))
       else None).

End Endpoints.

(** ** The remaining printer endpoints *)

(** [class TemperatureControl(BaseModel)] *)
Record TemperatureControl : Type := mk_TemperatureControl {
  hotend_temp : option spec_float;
  bed_temp : option spec_float
}.

Section Commands.

Variable env : Env.

Local Open Scope py_scope.
Local Open Scope string_scope.

(** [command not in commands], the dict having the keys "start", "pause",
    "resume" and "cancel". *)
Definition known_command (command : string) : bool :=
  existsb (String.eqb command) ["start"; "pause"; "resume"; "cancel"].

(** [command in ['pause', 'resume', 'cancel']] *)
Definition job_command (command : string) : bool :=
  existsb (String.eqb command) ["pause"; "resume"; "cancel"].

(** [not file_name]: [None] and the empty string are both falsy. *)
Definition falsy (file_name : option string) : bool :=
  match file_name with
  | None => true
  | Some EmptyString => true
  | Some _ => false
  end.

(** [f"{file_name}"] for an optional [str] *)
Definition str_opt (file_name : option string) : string :=
  match file_name with
  | Some name => name
  | None => "None"
  end.

(** [POST /printer/command] *)
Definition send_printer_command (command : string)
  (file_name : option string) : M json :=
  if negb (known_command command) then
    raise (HTTPException 400 "Invalid command")
  else
    try_except
      ((if job_command command then
          response <- requests_post env (OCTOPRINT_URL env ++ "/job")
                        (HEADERS env)
                        (JDict [("command", JStr command)]) ;;
          ret tt
        else if String.eqb command "start" then
          if falsy file_name then
            raise (HTTPException 400 "No file selected for printing")
          else
            select_file_response <-
              requests_post env
                (OCTOPRINT_URL env ++ "/files/local/" ++ str_opt file_name)
                (HEADERS env)
                (JDict [("command", JStr "select"); ("print", JBool true)]) ;;
            if negb (status_code select_file_response =? 204)%Z then
              raise (HTTPException (status_code select_file_response)
                       "Failed to select and start the file for printing")
            else ret tt
        else ret tt) ;;
       ret (JDict [("message",
                    JStr ("Command '" ++ command ++ "' sent successfully"))]))
      request_error_handler.

(** [POST /printer/temperature] *)
Definition set_temperature (temperature : TemperatureControl) : M json :=
  try_except
    (match hotend_temp temperature with
     | Some t =>
         let hotend_payload :=
           JDict [("command", JStr "target");
                  ("targets", JDict [("tool0", JFloat t)])] in
         hotend_response <-
           requests_post env (OCTOPRINT_URL env ++ "/printer/tool")
             (HEADERS env) hotend_payload ;;
         if negb (status_code hotend_response =? 204)%Z then
           raise (HTTPException (status_code hotend_response)
                    "Failed to set hotend temperature")
         else ret tt
     | None => ret tt
     end ;;
     match bed_temp temperature with
     | Some t =>
         let bed_payload :=
           JDict [("command", JStr "target"); ("target", JFloat t)] in
         bed_response <-
           requests_post env (OCTOPRINT_URL env ++ "/printer/bed")
             (HEADERS env) bed_payload ;;
         if negb (status_code bed_response =? 204)%Z then
           raise (HTTPException (status_code bed_response)
                    "Failed to set bed temperature")
         else ret tt
     | None => ret tt
     end ;;
     ret (JDict [("message", JStr "Temperature command(s) sent successfully")]))
    request_error_handler.

End Commands.

(** ** Vocabulary of the further properties *)

(** The frame a run of the loop hands back, if any. *)
Definition frame_of (r : scan) : option bytes :=
  match r with
  | Emitted frame _ => Some frame
  | Exhausted _ => None
  end.

Definition api_headers (env : Env) : list (string * string) :=
  [("X-Api-Key"%string, OCTOPRINT_API_KEY env)].

Definition job_request (env : Env) (command : string) : request :=
  mk_request "POST" (OCTOPRINT_URL env ++ "/job") (api_headers env)
    (Some (JDict [("command"%string, JStr command)])) false None.

Definition select_request (env : Env) (name : string) : request :=
  mk_request "POST" (OCTOPRINT_URL env ++ "/files/local/" ++ name)
    (api_headers env)
    (Some (JDict [("command"%string, JStr "select");
                  ("print"%string, JBool true)])) false None.

Definition tool_request (env : Env) (t : spec_float) : request :=
  mk_request "POST" (OCTOPRINT_URL env ++ "/printer/tool") (api_headers env)
    (Some (JDict [("command"%string, JStr "target");
                  ("targets"%string, JDict [("tool0"%string, JFloat t)])]))
    false None.

Definition bed_request (env : Env) (t : spec_float) : request :=
  mk_request "POST" (OCTOPRINT_URL env ++ "/printer/bed") (api_headers env)
    (Some (JDict [("command"%string, JStr "target");
                  ("target"%string, JFloat t)])) false None.

(** No field of the movement is set. *)
Definition no_field (m : MovementControl) : bool :=
  match x m, y m, z m, e m, speed m with
  | None, None, None, None, None => true
  | _, _, _, _, _ => false
  end.

(** A file entry of the listing that carries the name [n]. *)
Definition names (file n : json) : Prop :=
  exists d, file = JDict d /\ assoc "name" d = Some n.

(** ** Vocabulary of the claims about the webhook *)

(** Two texts are equal up to letter case. *)
Definition eq_ci (a b : string) : Prop := PyStr.lower a = PyStr.lower b.

(** [body] contains [kw] as a substring, case-insensitively. *)
Definition contains_ci (kw body : string) : Prop :=
  exists pre mid post,
    body = (pre ++ mid ++ post)%string /\ eq_ci mid kw.

Fixpoint no_space (s : string) : bool :=
  match s with
  | EmptyString => true
  | String c s' => negb (PyStr.isspace c) && no_space s'
  end.

(** [f"Printer Status: {printer_status.state}\nTemperatures:
    {printer_status.temperature}"] *)
Definition status_text (env : Env) (printer_status : PrinterState) : string :=
  ("Printer Status: " ++ state printer_status
   ++ String "010" "Temperatures: "
   ++ repr_dict env (temperature printer_status))%string.

(** The request [get_printer_status] sends, and the others. *)
Definition printer_request (env : Env) : request :=
  mk_request "GET" (OCTOPRINT_URL env ++ "/printer")
    [("X-Api-Key"%string, OCTOPRINT_API_KEY env)] None false None.

Definition files_request (env : Env) : request :=
  mk_request "GET" (OCTOPRINT_URL env ++ "/files")
    [("X-Api-Key"%string, OCTOPRINT_API_KEY env)] None false None.

Definition move_request (env : Env) (gcode_command : string) : request :=
  mk_request "POST" (OCTOPRINT_URL env ++ "/printer/command")
    [("X-Api-Key"%string, OCTOPRINT_API_KEY env)]
    (Some (JDict [("commands"%string, JList [JStr gcode_command])]))
    false None.

Definition frame_request (env : Env) : request :=
  mk_request "GET" (OCTOPRINT_WEBCAM_URL env) [] None true None.

Definition probe_request (env : Env) : request :=
  mk_request "GET" (OCTOPRINT_WEBCAM_URL env)
    [("X-Api-Key"%string, OCTOPRINT_API_KEY env)] None true (Some 5).

(** The state after one more request. *)
Definition after (w : world) (req : request) : world :=
  mk_world (sent w ++ [req]) (console w).

(** ** Sample surroundings for concrete runs *)

Module Sample.
Local Open Scope string_scope.

(** Float formatting on the values the examples use and no others: zeros,
    infinities, NaN, and integral values below 10^16 given with a
    non-negative exponent. *)
Definition str_float (f : spec_float) : string :=
  match f with
  | S754_zero false => "0.0"
  | S754_zero true => "-0.0"
  | S754_infinity false => "inf"
  | S754_infinity true => "-inf"
  | S754_nan => "nan"
  | S754_finite s m ex =>
      (if s then "-" else EmptyString) ++ PyStr.str_int (Z.pos m * 2 ^ ex) ++ ".0"
  end.

Definition repr_dict (d : list (string * json)) : string :=
  match d with
  | [] => "{}"
  | _ => "{...}"
  end.

(** Strict validation: [state] must be a [str], [temperature] a [dict]. *)
Definition PrinterState_init (st temp : json) : exn + PrinterState :=
  match st, temp with
  | JStr s, JDict d => inr (mk_PrinterState s d)
  | _, _ => inl (ValidationError "validation error for PrinterState")
  end.

(** The double quote, and the declaration every rendered TwiML document
    opens with. *)
Definition dq : string := String "034" EmptyString.

Definition xml_declaration : string :=
  "<?xml version=" ++ dq ++ "1.0" ++ dq ++ " encoding=" ++ dq ++ "UTF-8"
  ++ dq ++ "?>".

(** Escaping of element text: ampersand, less-than and greater-than. *)
Fixpoint xml_escape (s : string) : string :=
  match s with
  | EmptyString => EmptyString
  | String c s' =>
      (if Ascii.eqb c "&" then "&amp;"
       else if Ascii.eqb c "<" then "&lt;"
       else if Ascii.eqb c ">" then "&gt;"
       else String c EmptyString) ++ xml_escape s'
  end.

(** An element with text content; one without text is written as an empty
    tag. *)
Definition message_element (m : string) : string :=
  match m with
  | EmptyString => "<Message />"
  | _ => "<Message>" ++ xml_escape m ++ "</Message>"
  end.

(** [str(response)] of a [MessagingResponse] holding the given messages. *)
Definition twiml_str (messages : list string) : string :=
  xml_declaration
  ++ match messages with
     | [] => "<Response />"
     | _ => "<Response>"
            ++ String.concat EmptyString (map message_element messages)
            ++ "</Response>"
     end.

Definition env (up : list request -> request -> reply) : Env :=
  mk_Env EmptyString "http://automaker.local/api" EmptyString str_float repr_dict
    PrinterState_init twiml_str up.

(** An upstream that gives every request the same answer. *)
Definition always (r : reply) : list request -> request -> reply :=
  fun _ _ => r.

Definition refused : reply :=
  Fails ConnectionError "Connection refused".

Definition w0 : world := mk_world [] [].

(** A camera answering 200 with the given chunks. *)
Definition camera (chunks : list bytes) : reply :=
  Responds (mk_response 200 (Some "multipart/x-mixed-replace; boundary=frame")
              chunks None (inl (ValueError "not JSON"))).

(** A printer API answering with a status and a JSON body. *)
Definition printer (status : Z) (body : json) : reply :=
  Responds (mk_response status (Some "application/json") [] None (inr body)).

(** 1500.0 *)
Definition f1500 : spec_float := S754_finite false 1500 0.

End Sample.

(** * Concrete runs of the embedding *)

Example loop_ex1 :
  iter_content_loop delim_frame []
    [delim_frame ++ [x0d; x0a]; [xff; xd8; x00]; [x01; xff; xd9; x0d; x0a]]
  = Emitted [xff; xd8; x00; x01; xff; xd9] [x0d; x0a].
Proof. reflexivity. Qed.

Example loop_ex2 :
  iter_content_loop delim_frame [] [[xff; xd8; x00; xff; xd9]]
  = Exhausted [xff; xd8; x00; xff; xd9].
Proof. reflexivity. Qed.

Example loop_ex3 :
  iter_content_loop delim_frame [] [delim_frame ++ [xff; xd9; xff; xd8]]
  = Emitted [] [xff; xd8].
Proof. reflexivity. Qed.

Example split_ex1 :
  last (PyStr.split "multipart/x-mixed-replace; boundary=frame" "boundary=")
       EmptyString = "frame"%string.
Proof. reflexivity. Qed.

Example split_ex2 :
  PyStr.split "a--b--c" "--" = ["a"; "b"; "c"]%string.
Proof. reflexivity. Qed.

Example encode_ex1 : PyStr.encode "--frame" = delim_frame.
Proof. reflexivity. Qed.

Example strip_ex1 :
  PyStr.strip (PyStr.lower "  Printer STATUS please
 ") = "printer status please"%string.
Proof. reflexivity. Qed.

Example str_int_ex1 : PyStr.str_int 503 = "503"%string.
Proof. reflexivity. Qed.

Example move_ex1 :
  gcode_of (Sample.env (Sample.always Sample.refused))
    (mk_MovementControl (Some (S754_finite false 10 0)) None
       (Some (S754_finite false 3 0)) None None)
  = "G0 X10.0 Z3.0"%string.
Proof. reflexivity. Qed.

Example frame_ex1 :
  fst (get_camera_frame
         (Sample.env (Sample.always (Sample.camera
            [PyStr.encode "--frame"; [xff; xd8; x00; xff; xd9]])))
         Sample.w0)
  = Ret (Some [xff; xd8; x00; xff; xd9]).
Proof. reflexivity. Qed.

(** The repository's own tests ([tests/pytest.py]), against a printer API
    that accepts every command. *)
Example test_move_printer_no_axis :
  fst (move_printer (Sample.env (Sample.always (Sample.printer 204 JNone)))
         (mk_MovementControl None None None None None) Sample.w0)
  = Raise (HTTPException 400 "No movement axis specified").
Proof. reflexivity. Qed.

Example test_move_printer_x_axis :
  fst (move_printer (Sample.env (Sample.always (Sample.printer 204 JNone)))
         (mk_MovementControl (Some (S754_finite false 10 0)) None None None
            None) Sample.w0)
  = Ret (JDict [("message"%string, JStr "Sent command: G0 X10.0")]).
Proof. reflexivity. Qed.

Example test_move_printer_xyz_axis :
  fst (move_printer (Sample.env (Sample.always (Sample.printer 204 JNone)))
         (mk_MovementControl (Some (S754_finite false 10 0))
            (Some (S754_finite false 5 0)) (Some (S754_finite false 3 0))
            None None) Sample.w0)
  = Ret (JDict [("message"%string, JStr "Sent command: G0 X10.0 Y5.0 Z3.0")]).
Proof. reflexivity. Qed.

(** * Facts about [bytes] searching and slicing *)

Lemma startswith_iff (sub buf : bytes) :
  startswith sub buf = true <-> exists post, buf = sub ++ post.
Proof.
  revert buf; induction sub as [|a sub IH]; intros buf; simpl.
  - split; eauto.
  - destruct buf as [|b buf].
    + split; [discriminate | intros [post H]; discriminate].
    + rewrite andb_true_iff, IH. split.
      * intros [Hab [post ->]]. apply byte_dec_bl in Hab. subst. eauto.
      * intros [post H]. injection H as -> ->.
        split; [now apply byte_dec_lb | eauto].
Qed.

Lemma startswith_app (sub a b : bytes) :
  startswith sub a = true -> startswith sub (a ++ b) = true.
Proof.
  rewrite !startswith_iff. intros [post ->].
  exists (post ++ b). now rewrite app_assoc.
Qed.

Lemma startswith_length (sub buf : bytes) :
  startswith sub buf = true -> (length sub <= length buf)%nat.
Proof.
  rewrite startswith_iff. intros [post ->]. rewrite length_app. lia.
Qed.

Lemma startswith_app_inv (sub a b : bytes) :
  (length sub <= length a)%nat ->
  startswith sub (a ++ b) = startswith sub a.
Proof.
  revert a; induction sub as [|c sub IH]; intros a Hlen; simpl; auto.
  destruct a as [|d a]; simpl in *; [lia|].
  rewrite IH by lia. reflexivity.
Qed.

Lemma index_of_bound (sub buf : bytes) (n : nat) :
  index_of sub buf = Some n -> (n + length sub <= length buf)%nat.
Proof.
  revert n; induction buf as [|c buf IH]; intros n; simpl.
  - destruct (startswith sub []) eqn:Hs; [|discriminate].
    intros [= <-]. apply startswith_length in Hs. simpl in Hs. lia.
  - destruct (startswith sub (c :: buf)) eqn:Hs.
    + intros [= <-]. apply startswith_length in Hs. simpl in *. lia.
    + destruct (index_of sub buf) as [m|]; simpl; [|discriminate].
      intros [= <-]. specialize (IH m eq_refl). lia.
Qed.

Lemma index_of_app (sub a b : bytes) (n : nat) :
  index_of sub a = Some n -> index_of sub (a ++ b) = Some n.
Proof.
  revert n; induction a as [|c a IH]; intros n; simpl.
  - destruct (startswith sub []) eqn:Hs; [|discriminate].
    intros [= <-]. destruct sub; [|discriminate]. now destruct b.
  - destruct (startswith sub (c :: a)) eqn:Hs.
    + intros [= <-].
      change (c :: a ++ b) with ((c :: a) ++ b).
      now rewrite (startswith_app _ _ b Hs).
    + destruct (index_of sub a) as [m|] eqn:Hm; simpl; [|discriminate].
      intros [= <-].
      pose proof (index_of_bound _ _ _ Hm) as Hb.
      change (c :: a ++ b) with ((c :: a) ++ b).
      rewrite startswith_app_inv by (simpl; lia).
      rewrite Hs, (IH m eq_refl). reflexivity.
Qed.

Lemma index_of_split (sub buf : bytes) (n : nat) :
  index_of sub buf = Some n ->
  exists pre post, buf = pre ++ sub ++ post /\ length pre = n.
Proof.
  revert n; induction buf as [|c buf IH]; intros n; simpl.
  - destruct (startswith sub []) eqn:Hs; [|discriminate].
    intros [= <-]. apply startswith_iff in Hs as [post Hp].
    exists [], post. now split.
  - destruct (startswith sub (c :: buf)) eqn:Hs.
    + intros [= <-]. apply startswith_iff in Hs as [post Hp].
      exists [], post. now split.
    + destruct (index_of sub buf) as [m|]; simpl; [|discriminate].
      intros [= <-]. destruct (IH m eq_refl) as (pre & post & -> & Hl).
      exists (c :: pre), post. split; [reflexivity | simpl; lia].
Qed.

Lemma find_from_index (sub buf : bytes) (i : Z) :
  find_from sub buf i =
  match index_of sub buf with
  | Some n => i + Z.of_nat n
  | None => -1
  end.
Proof.
  revert i; induction buf as [|c buf IH]; intros i; simpl.
  - destruct (startswith sub []); simpl; lia.
  - destruct (startswith sub (c :: buf)); simpl; [lia|].
    rewrite IH. destruct (index_of sub buf); simpl; lia.
Qed.

Lemma find_index (buf sub : bytes) :
  find buf sub =
  match index_of sub buf with
  | Some n => Z.of_nat n
  | None => -1
  end.
Proof.
  unfold find. rewrite find_from_index. destruct (index_of sub buf); lia.
Qed.

Lemma find_found (buf sub : bytes) :
  (find buf sub =? -1) = false ->
  exists n, index_of sub buf = Some n /\ find buf sub = Z.of_nat n.
Proof.
  rewrite find_index. destruct (index_of sub buf) as [n|]; intros H.
  - eauto.
  - discriminate.
Qed.

Lemma find_app (a b sub : bytes) :
  (find a sub =? -1) = false -> find (a ++ b) sub = find a sub.
Proof.
  intros H. destruct (find_found _ _ H) as (n & Hn & Hf).
  rewrite Hf, find_index, (index_of_app _ _ b _ Hn). reflexivity.
Qed.

Lemma contains_app (sub a b : bytes) :
  contains sub a = true -> contains sub (a ++ b) = true.
Proof.
  unfold contains. rewrite !negb_true_iff. intros H.
  now rewrite find_app.
Qed.

Lemma contains_app_false (sub a b : bytes) :
  contains sub (a ++ b) = false -> contains sub a = false.
Proof.
  intros H. destruct (contains sub a) eqn:Ha; [|reflexivity].
  now rewrite (contains_app _ _ b Ha) in H.
Qed.

(** Two-byte markers that open with 0xFF and differ from 0xFF in their
    second byte cannot overlap: of two such markers found at different
    places, the later one starts after the earlier one has ended. *)
Lemma two_markers_split (m1 m2 : byte) (b : bytes) (s e : nat) :
  m1 <> xff ->
  index_of [xff; m1] b = Some s -> index_of [xff; m2] b = Some e ->
  (s < e)%nat ->
  exists pre mid rest,
    b = pre ++ [xff; m1] ++ mid ++ [xff; m2] ++ rest /\
    length pre = s /\ e = (s + 2 + length mid)%nat.
Proof.
  intros Hm Hs He Hlt.
  destruct (index_of_split _ _ _ Hs) as (pre1 & post1 & E1 & L1).
  destruct (index_of_split _ _ _ He) as (pre2 & post2 & E2 & L2).
  rewrite E1 in E2. apply app_eq_app in E2 as [l [[Hp Hq]|[Hp Hq]]].
  - apply (f_equal (@length byte)) in Hp. rewrite length_app in Hp. lia.
  - destruct l as [|a [|c l]].
    + rewrite app_nil_r in Hp. subst. lia.
    + simpl in Hq. injection Hq as _ Hq _. congruence.
    + simpl in Hq. injection Hq as <- <- ->.
      exists pre1, l, post2. repeat split.
      * rewrite E1. reflexivity.
      * assumption.
      * subst. rewrite length_app. simpl. lia.
Qed.

Lemma markers_split (b : bytes) (s e : nat) :
  index_of SOI b = Some s -> index_of EOI b = Some e -> (s < e)%nat ->
  exists pre mid rest,
    b = pre ++ SOI ++ mid ++ EOI ++ rest /\
    length pre = s /\ e = (s + 2 + length mid)%nat.
Proof. apply two_markers_split. discriminate. Qed.

Lemma markers_apart (b : bytes) (s e : nat) :
  index_of SOI b = Some s -> index_of EOI b = Some e -> s <> e.
Proof.
  intros Hs He ->.
  destruct (index_of_split _ _ _ Hs) as (pre1 & post1 & E1 & L1).
  destruct (index_of_split _ _ _ He) as (pre2 & post2 & E2 & L2).
  rewrite E1 in E2. apply app_eq_app in E2 as [l [[Hp Hq]|[Hp Hq]]];
    (destruct l;
     [simpl in Hq; discriminate
     | apply (f_equal (@length byte)) in Hp; rewrite length_app in Hp;
       simpl in Hp; lia]).
Qed.

Lemma slice_empty (b : bytes) (lo hi : nat) :
  (hi <= lo)%nat -> slice b (Z.of_nat lo) (Z.of_nat hi) = [].
Proof.
  intros H. unfold slice, clamp.
  destruct (Z.ltb_spec (Z.of_nat lo) 0); [lia |].
  destruct (Z.ltb_spec (Z.of_nat hi) 0); [lia |].
  replace (Z.to_nat _) with 0%nat by lia. reflexivity.
Qed.

Lemma slice_middle (pre mid rest : bytes) :
  slice (pre ++ mid ++ rest) (Z.of_nat (length pre))
        (Z.of_nat (length pre + length mid)) = mid.
Proof.
  unfold slice, clamp. rewrite !length_app.
  destruct (Z.ltb_spec (Z.of_nat (length pre)) 0); [lia|].
  destruct (Z.ltb_spec (Z.of_nat (length pre + length mid)) 0); [lia|].
  rewrite !Z.min_l by lia. rewrite Nat2Z.id.
  replace (Z.to_nat _) with (length mid) by lia.
  rewrite skipn_app, skipn_all, Nat.sub_diag. simpl.
  rewrite firstn_app, firstn_all, Nat.sub_diag. simpl. apply app_nil_r.
Qed.

Lemma slice_from_tail (pre rest : bytes) :
  slice_from (pre ++ rest) (Z.of_nat (length pre)) = rest.
Proof.
  unfold slice_from, clamp. rewrite length_app.
  destruct (Z.ltb_spec (Z.of_nat (length pre)) 0); [lia|].
  rewrite Z.min_l by lia. rewrite Nat2Z.id.
  rewrite skipn_app, skipn_all, Nat.sub_diag. reflexivity.
Qed.

(** * The frame extractor *)

(** The two slices the loop takes, on a buffer cut at the markers. *)
Lemma frame_slices (pre mid rest : bytes) :
  let b := pre ++ SOI ++ mid ++ EOI ++ rest in
  let e := Z.of_nat (length pre + 2 + length mid) in
  slice b (Z.of_nat (length pre)) (e + 2) = SOI ++ mid ++ EOI /\
  slice_from b (e + 2) = rest.
Proof.
  cbv zeta. split.
  - replace (Z.of_nat (length pre + 2 + length mid) + 2)
      with (Z.of_nat (length pre + length (SOI ++ mid ++ EOI)))
      by (rewrite !length_app; simpl; lia).
    replace (pre ++ SOI ++ mid ++ EOI ++ rest)
      with (pre ++ (SOI ++ mid ++ EOI) ++ rest)
      by (now rewrite <- !app_assoc).
    apply slice_middle.
  - replace (Z.of_nat (length pre + 2 + length mid) + 2)
      with (Z.of_nat (length (pre ++ SOI ++ mid ++ EOI)))
      by (rewrite !length_app; simpl; lia).
    replace (pre ++ SOI ++ mid ++ EOI ++ rest)
      with ((pre ++ SOI ++ mid ++ EOI) ++ rest)
      by (now rewrite <- !app_assoc).
    apply slice_from_tail.
Qed.

Lemma ready_nil (delimiter : bytes) : ready delimiter [] = false.
Proof. unfold ready. simpl. apply andb_false_r. Qed.

(** The loop returns at the first chunk after which the buffer passes the
    test, with the slices taken from the buffer as it is then. *)
Lemma loop_emits (delimiter : bytes) (chunks : list bytes) :
  forall buf,
    ready delimiter buf = false ->
    ready delimiter (buf ++ concat chunks) = true ->
    exists n,
      (n < length chunks)%nat /\
      let b := buf ++ concat (firstn (S n) chunks) in
      ready delimiter b = true /\
      iter_content_loop delimiter buf chunks =
      Emitted (slice b (find b SOI) (find b EOI + 2))
              (slice_from b (find b EOI + 2)).
Proof.
  induction chunks as [|chunk rest IH]; intros buf Hno Hyes.
  - simpl in Hyes. rewrite app_nil_r in Hyes. congruence.
  - destruct (ready delimiter (buf ++ chunk)) eqn:Hr.
    + exists 0%nat. simpl. rewrite app_nil_r. repeat split; [lia | assumption |].
      unfold ready in Hr. apply andb_true_iff in Hr as [Hr H3].
      apply andb_true_iff in Hr as [H1 H2]. now rewrite H1, H2, H3.
    + simpl in Hyes. rewrite app_assoc in Hyes.
      destruct (IH _ Hr Hyes) as (n & Hn & Hb & Hrun).
      exists (S n). cbn zeta in *.
      change (concat (firstn (S (S n)) (chunk :: rest)))
        with (chunk ++ concat (firstn (S n) rest)).
      rewrite app_assoc. repeat split; [simpl; lia | assumption |].
      rewrite <- Hrun. simpl.
      unfold ready in Hr.
      destruct (contains delimiter (buf ++ chunk)); [|reflexivity].
      simpl in Hr. now rewrite Hr.
Qed.

(** While the delimiter is not in the buffer the markers are not looked
    for, and the loop runs to the end of the stream. *)
Lemma loop_waits_for_delimiter (delimiter : bytes) (chunks : list bytes) :
  forall buf,
    contains delimiter (buf ++ concat chunks) = false ->
    iter_content_loop delimiter buf chunks = Exhausted (buf ++ concat chunks).
Proof.
  induction chunks as [|chunk rest IH]; intros buf H; simpl.
  - now rewrite app_nil_r.
  - simpl in H. rewrite app_assoc in H.
    rewrite (contains_app_false _ _ _ H). rewrite (IH _ H).
    now rewrite app_assoc.
Qed.

Lemma concat_firstn_skipn (n : nat) (chunks : list bytes) :
  concat chunks = concat (firstn n chunks) ++ concat (skipn n chunks).
Proof. now rewrite <- concat_app, firstn_skipn. Qed.

(** The loop returns at the first chunk after which the buffer passes the
    test: no shorter run of chunks passes it. *)
Lemma loop_emits_first (delimiter : bytes) (chunks : list bytes) :
  forall buf,
    ready delimiter buf = false ->
    ready delimiter (buf ++ concat chunks) = true ->
    exists n,
      (n < length chunks)%nat /\
      ready delimiter (buf ++ concat (firstn (S n) chunks)) = true /\
      (forall m, (m < n)%nat ->
                 ready delimiter (buf ++ concat (firstn (S m) chunks)) = false)
      /\
      iter_content_loop delimiter buf chunks =
      Emitted (slice (buf ++ concat (firstn (S n) chunks))
                 (find (buf ++ concat (firstn (S n) chunks)) SOI)
                 (find (buf ++ concat (firstn (S n) chunks)) EOI + 2))
              (slice_from (buf ++ concat (firstn (S n) chunks))
                 (find (buf ++ concat (firstn (S n) chunks)) EOI + 2)).
Proof.
  induction chunks as [|chunk rest IH]; intros buf Hno Hyes.
  - simpl in Hyes. rewrite app_nil_r in Hyes. congruence.
  - destruct (ready delimiter (buf ++ chunk)) eqn:Hr.
    + exists 0%nat. simpl. rewrite app_nil_r.
      split; [lia |]. split; [assumption |]. split; [intros m Hm; lia |].
      unfold ready in Hr. apply andb_true_iff in Hr as [Hr H3].
      apply andb_true_iff in Hr as [H1 H2]. now rewrite H1, H2, H3.
    + simpl in Hyes. rewrite app_assoc in Hyes.
      destruct (IH _ Hr Hyes) as (n & Hn & Hb & Hmin & Hrun).
      exists (S n).
      change (concat (firstn (S (S n)) (chunk :: rest)))
        with (chunk ++ concat (firstn (S n) rest)).
      rewrite app_assoc.
      split; [simpl; lia |]. split; [assumption |]. split.
      * intros [|m] Hm.
        -- simpl. now rewrite app_nil_r.
        -- change (concat (firstn (S (S m)) (chunk :: rest)))
             with (chunk ++ concat (firstn (S m) rest)).
           rewrite app_assoc. apply Hmin. lia.
      * rewrite <- Hrun. simpl.
        unfold ready in Hr.
        destruct (contains delimiter (buf ++ chunk)); [| reflexivity].
        simpl in Hr. now rewrite Hr.
Qed.

(** C1 (as amended).  Once the accumulated stream holds the boundary
    delimiter, and its first end marker lies after its first start marker,
    the loop returns exactly one frame: the bytes from that start marker
    through that end marker inclusive.  It returns at chunk [n], the first
    chunk after which the buffer holds the delimiter and both markers
    ([ready] holds after chunk [n] and after no earlier chunk); the buffer
    at that moment is [pre ++ frame ++ rest] and the buffer left behind is
    [rest], so nothing at or before the end of the frame stays.  The
    delimiter is required: as long as the buffer does not contain it,
    nothing is emitted whatever markers are there. *)
Theorem frame_emitted_when_delimited
  (delimiter : bytes) (chunks : list bytes) :
  contains delimiter (concat chunks) = true ->
  0 <= find (concat chunks) SOI < find (concat chunks) EOI ->
  (exists n pre mid rest,
      (n < length chunks)%nat /\
      ready delimiter (concat (firstn (S n) chunks)) = true /\
      (forall m, (m < n)%nat ->
                 ready delimiter (concat (firstn (S m) chunks)) = false) /\
      concat (firstn (S n) chunks) = pre ++ SOI ++ mid ++ EOI ++ rest /\
      Z.of_nat (length pre) = find (concat chunks) SOI /\
      Z.of_nat (length pre + 2 + length mid) = find (concat chunks) EOI /\
      iter_content_loop delimiter [] chunks = Emitted (SOI ++ mid ++ EOI) rest)
  /\
  (forall chunks',
      contains delimiter (concat chunks') = false ->
      iter_content_loop delimiter [] chunks' = Exhausted (concat chunks')).
Proof.
  intros Hd Hse. split.
  2:{ intros chunks' H. now apply loop_waits_for_delimiter. }
  assert (Hs : (find (concat chunks) SOI =? -1) = false) by lia.
  assert (He : (find (concat chunks) EOI =? -1) = false) by lia.
  assert (Hready : ready delimiter ([] ++ concat chunks) = true).
  { unfold ready. simpl. now rewrite Hd, Hs, He. }
  destruct (loop_emits_first delimiter chunks [] (ready_nil _) Hready)
    as (n & Hn & Hb & Hmin & Hrun).
  change ([] ++ concat (firstn (S n) chunks))
    with (concat (firstn (S n) chunks)) in Hb, Hrun.
  pose proof Hb as Hb'.
  unfold ready in Hb. apply andb_true_iff in Hb as [Hb Hb3].
  apply andb_true_iff in Hb as [Hb1 Hb2]. apply negb_true_iff in Hb2, Hb3.
  pose proof (find_app _ (concat (skipn (S n) chunks)) SOI Hb2) as Es.
  pose proof (find_app _ (concat (skipn (S n) chunks)) EOI Hb3) as Ee.
  rewrite <- concat_firstn_skipn in Es, Ee.
  set (b := concat (firstn (S n) chunks)) in *.
  destruct (find_found _ _ Hb2) as (s & Is & Fs).
  destruct (find_found _ _ Hb3) as (e & Ie & Fe).
  assert (Hlt : (s < e)%nat) by lia.
  destruct (markers_split b s e Is Ie Hlt) as (pre & mid & rest & Eb & Lp & Le).
  exists n, pre, mid, rest.
  split; [assumption |]. split; [assumption |].
  split; [intros m Hm; exact (Hmin m Hm) |].
  split; [assumption |]. split; [lia |]. split; [lia |].
  rewrite Hrun, Fs, Fe.
  destruct (frame_slices pre mid rest) as [E1 E2].
  rewrite <- Eb, Lp, <- Le in E1, E2.
  now rewrite E1, E2.
Qed.

(** A stream in three chunks, the image split across the last two: the
    loop returns at the third chunk. *)
Lemma frame_emitted_witness :
  let chunks :=
    [delim_frame ++ [x0d; x0a]; [xff; xd8; x00]; [x01; xff; xd9; x0d; x0a]] in
  contains delim_frame (concat chunks) = true /\
  0 <= find (concat chunks) SOI < find (concat chunks) EOI /\
  exists n pre mid rest,
    (n < length chunks)%nat /\
    ready delim_frame (concat (firstn (S n) chunks)) = true /\
    (forall m, (m < n)%nat ->
               ready delim_frame (concat (firstn (S m) chunks)) = false) /\
    concat (firstn (S n) chunks) = pre ++ SOI ++ mid ++ EOI ++ rest /\
    Z.of_nat (length pre) = find (concat chunks) SOI /\
    Z.of_nat (length pre + 2 + length mid) = find (concat chunks) EOI /\
    iter_content_loop delim_frame [] chunks = Emitted (SOI ++ mid ++ EOI) rest.
Proof.
  intros chunks.
  assert (H1 : contains delim_frame (concat chunks) = true) by reflexivity.
  assert (H2 : 0 <= find (concat chunks) SOI < find (concat chunks) EOI).
  { change (find (concat chunks) SOI) with 9.
    change (find (concat chunks) EOI) with 13. lia. }
  split; [exact H1 | split; [exact H2 |]].
  exact (proj1 (frame_emitted_when_delimited delim_frame chunks H1 H2)).
Defined.

(** C1 as stated fails: a buffer holding a complete span but no boundary
    token yields no frame at all. *)
Lemma span_without_delimiter_not_emitted :
  let chunks := [[xff; xd8; x00; xff; xd9]] in
  complete_span (concat chunks) 0 3 /\
  contains delim_frame (concat chunks) = false /\
  forall frame rest,
    iter_content_loop delim_frame [] chunks <> Emitted frame rest.
Proof.
  intros chunks. split; [|split].
  - unfold complete_span. simpl. repeat split. lia.
  - reflexivity.
  - intros frame rest. vm_compute. discriminate.
Qed.

(** C2: a stream whose only end marker precedes its only start marker makes
    the loop return an empty byte string as the frame, where nothing should
    be emitted. *)
Theorem dangling_end_marker_emits_empty_frame :
  let buf := delim_frame ++ [x0d; x0a; xff; xd9; xff; xd8] in
  find buf EOI < find buf SOI /\
  (forall s e, ~ complete_span buf s e) /\
  iter_content_loop delim_frame [] [buf] = Emitted [] [xff; xd8] /\
  fst (get_camera_frame (Sample.env (Sample.always (Sample.camera [buf])))
         Sample.w0) = Ret (Some []).
Proof.
  intros buf. split; [reflexivity | split; [| split; reflexivity]].
  intros s e (Hlt & Hs & He). subst buf.
  assert (Es : s = 11%nat).
  { do 14 (destruct s as [|s]; [first [discriminate Hs | reflexivity] |]).
    discriminate Hs. }
  subst s.
  do 14 (destruct e as [|e]; [first [discriminate He | lia] |]).
  discriminate He.
Qed.

(** C3: with the tail of one image ahead of the next complete image, the
    value returned as the frame is empty: it neither starts with the start
    marker nor ends with the end marker. *)
Theorem emitted_frame_not_a_jpeg :
  let chunks :=
    [[x7f; xff; xd9; x0d; x0a] ++ delim_frame ++ [x0d; x0a];
     [xff; xd8; x01; x02; xff; xd9; x0d; x0a]] in
  exists frame rest,
    iter_content_loop delim_frame [] chunks = Emitted frame rest /\
    frame = [] /\
    ~ is_frame frame /\
    fst (get_camera_frame (Sample.env (Sample.always (Sample.camera chunks)))
           Sample.w0) = Ret (Some frame).
Proof.
  intros chunks. eexists _, _. split; [reflexivity |].
  split; [reflexivity | split; [| reflexivity]].
  intros [H _]. discriminate H.
Qed.

(** What the loop guarantees on every input: a returned frame was cut
    from a buffer that passes the test, and it is either a whole image,
    start marker through end marker, or empty (when the first end marker
    of the buffer precedes its first start marker). *)
Lemma loop_emitted_inv (delimiter : bytes) (chunks : list bytes) :
  forall buf frame rest,
    iter_content_loop delimiter buf chunks = Emitted frame rest ->
    exists b,
      ready delimiter b = true /\
      frame = slice b (find b SOI) (find b EOI + 2) /\
      rest = slice_from b (find b EOI + 2).
Proof.
  induction chunks as [|chunk more IH]; intros buf frame rest; simpl.
  - discriminate.
  - unfold ready in *.
    destruct (contains delimiter (buf ++ chunk)) eqn:Hc; [| apply IH].
    destruct (negb (find (buf ++ chunk) SOI =? -1)
              && negb (find (buf ++ chunk) EOI =? -1)) eqn:Hm; [| apply IH].
    intros [= <- <-]. exists (buf ++ chunk).
    rewrite Hc. simpl. rewrite Hm. auto.
Qed.

Lemma emitted_frame_shape
  (delimiter buf : bytes) (chunks : list bytes) (frame rest : bytes) :
  iter_content_loop delimiter buf chunks = Emitted frame rest ->
  is_frame frame \/ frame = [].
Proof.
  intros H. apply loop_emitted_inv in H as (b & Hb & -> & _).
  unfold ready in Hb. apply andb_true_iff in Hb as [Hb H3].
  apply andb_true_iff in Hb as [_ H2]. apply negb_true_iff in H2, H3.
  destruct (find_found _ _ H2) as (s & Is & ->).
  destruct (find_found _ _ H3) as (e & Ie & ->).
  pose proof (markers_apart b s e Is Ie) as Hne.
  destruct (Nat.lt_ge_cases s e) as [Hlt | Hge].
  - left.
    destruct (markers_split b s e Is Ie Hlt) as (pre & mid & tl & Eb & Lp & Le).
    destruct (frame_slices pre mid tl) as [E1 _].
    rewrite <- Eb, Lp, <- Le in E1.
    rewrite E1. split.
    + apply startswith_iff. eauto.
    + rewrite !rev_app_distr, <- app_assoc. apply startswith_iff. eauto.
  - right.
    assert (Hlt : (e < s)%nat) by lia.
    destruct (two_markers_split xd9 xd8 b e s ltac:(discriminate) Ie Is Hlt)
      as (pre & mid & tl & _ & Lp & Le).
    replace (Z.of_nat e + 2) with (Z.of_nat (e + 2)) by lia.
    apply slice_empty. lia.
Qed.

(** Without any start marker in the stream, nothing is emitted. *)
Lemma no_start_marker_no_frame (delimiter : bytes) (chunks : list bytes) :
  forall buf,
    find (buf ++ concat chunks) SOI = -1 ->
    iter_content_loop delimiter buf chunks = Exhausted (buf ++ concat chunks).
Proof.
  induction chunks as [|chunk more IH]; intros buf H; simpl.
  - now rewrite app_nil_r.
  - simpl in H. rewrite app_assoc in H.
    assert (Hs : (find (buf ++ chunk) SOI =? -1) = true).
    { destruct (find (buf ++ chunk) SOI =? -1) eqn:E; [reflexivity |].
      rewrite (find_app _ (concat more) _ E) in H.
      apply Z.eqb_neq in E. contradiction. }
    rewrite Hs. simpl. rewrite (IH _ H), app_assoc.
    now destruct (contains delimiter (buf ++ chunk)).
Qed.

(** * The camera endpoints *)

(** Expose the state passing of an endpoint body. *)
Ltac unfold_monad :=
  unfold try_except, bind, ret, raise, lift, emit, requests_get,
    requests_post, requests_send, header_content_type,
    request_error_handler in *.


(** C4 (as amended).  [GET /camera/stream] answers 200 with a streaming
    body of media type [multipart/x-mixed-replace; boundary=frame] when the
    camera answers 200, fails with 503 when the camera answers any other
    status, and fails with 500 (detail: the error text after a fixed
    prefix) when the request itself fails by a connection error or a
    timeout. *)
Theorem stream_camera_outcomes (env : Env) (w : world) :
  let res := fst (stream_camera env w) in
  match upstream env (sent w) (frame_request env) with
  | Responds r =>
      if status_code r =? 200 then
        res = Ret (mk_StreamingResponse (iter_content r, iter_error r)
                     "multipart/x-mixed-replace; boundary=frame" 200)
        /\ http_status res = 200
      else
        res = Raise (HTTPException 503 "Camera stream is not available")
        /\ http_status res = 503
  | Fails k msg =>
      res = Raise (HTTPException 500
                     ("Error connecting to the camera stream: " ++ msg))
      /\ http_status res = 500
  end.
Proof.
  unfold stream_camera, frame_request. unfold_monad.
  destruct (upstream env (sent w) _) as [r | k msg]; cbn.
  - destruct (status_code r =? 200); cbn; split; reflexivity.
  - split; reflexivity.
Qed.

(** C4 as stated fails: a refused connection and a timeout both end in
    500, not 503. *)
Lemma stream_camera_unreachable_is_500 :
  http_status
    (fst (stream_camera (Sample.env (Sample.always Sample.refused))
            Sample.w0)) = 500 /\
  http_status
    (fst (stream_camera
            (Sample.env (Sample.always (Fails ConnectTimeout "timed out")))
            Sample.w0)) = 500 /\
  500 <> 503.
Proof. repeat split. lia. Qed.

(** C5.  [GET /camera/status] returns a body for every upstream behaviour,
    so the route answers 200; [camera_status] is "online" exactly when the
    camera answered 200 and "offline" otherwise; when the request fails the
    body carries an [error] text, "Connection timed out" for a timeout and
    the text of the connection error otherwise, hence a non-empty one as
    soon as that text is non-empty. *)
Theorem get_camera_status_never_fails (env : Env) (w : world) :
  exists body w',
    get_camera_status env w = (Ret body, w') /\
    http_status (fst (get_camera_status env w)) = 200 /\
    (getitem body "camera_status" = inr (JStr "online") \/
     getitem body "camera_status" = inr (JStr "offline")) /\
    match upstream env (sent w) (probe_request env) with
    | Responds r =>
        getitem body "camera_status" =
        inr (JStr (if status_code r =? 200 then "online" else "offline"))
    | Fails k msg =>
        getitem body "camera_status" = inr (JStr "offline") /\
        exists d,
          getitem body "error" = inr (JStr d) /\
          d = (if is_Timeout k then "Connection timed out"%string else msg) /\
          (msg <> EmptyString -> d <> EmptyString)
    end.
Proof.
  unfold get_camera_status, probe_request, HEADERS. unfold_monad.
  destruct (upstream env (sent w) _) as [r | k msg]; cbn.
  - destruct (status_code r =? 200); cbn;
      eexists _, _; (repeat split; [reflexivity .. | ]); auto.
  - destruct (is_Timeout k); cbn;
      eexists _, _; (split; [reflexivity |]);
      (split; [reflexivity |]); (split; [now right |]);
      (split; [reflexivity |]); eexists; (split; [reflexivity |]);
      (split; [reflexivity |]); [discriminate | auto].
Qed.

(** The probe against a camera that refuses the connection. *)
Lemma get_camera_status_witness :
  exists body,
    fst (get_camera_status (Sample.env (Sample.always Sample.refused))
           Sample.w0) = Ret body /\
    getitem body "camera_status" = inr (JStr "offline") /\
    exists d, getitem body "error" = inr (JStr d) /\ d <> EmptyString.
Proof.
  destruct (get_camera_status_never_fails
              (Sample.env (Sample.always Sample.refused)) Sample.w0)
    as (body & w' & Hrun & _ & _ & Hoff & d & Hd & _ & Hne).
  exists body. rewrite Hrun. split; [reflexivity |]. split; [exact Hoff |].
  exists d. split; [exact Hd |]. apply Hne. discriminate.
Defined.

(** * The printer endpoints *)

(** C6 (as amended).  When the printer API answers [GET /printer] or
    [GET /files] with a status other than 200, the operation fails with that
    same status and with a fixed detail text written in the code
    ("Failed to fetch data from OctoPrint", "Failed to fetch file list from
    OctoPrint"), whatever the upstream body says; exactly one request has
    been sent, so nothing is retried. *)
Theorem printer_api_error_propagated (env : Env) (w : world) (r : response) :
  status_code r <> 200 ->
  (upstream env (sent w) (printer_request env) = Responds r ->
   get_printer_status env w =
   (Raise (HTTPException (status_code r)
             "Failed to fetch data from OctoPrint"),
    after w (printer_request env)))
  /\
  (upstream env (sent w) (files_request env) = Responds r ->
   list_files env w =
   (Raise (HTTPException (status_code r)
             "Failed to fetch file list from OctoPrint"),
    after w (files_request env))).
Proof.
  intros Hst. apply Z.eqb_neq in Hst.
  split; intros Hup.
  - unfold get_printer_status, HEADERS. unfold_monad.
    fold (printer_request env). rewrite Hup. cbn. rewrite Hst. reflexivity.
  - unfold list_files, HEADERS. unfold_monad.
    fold (files_request env). rewrite Hup. cbn. rewrite Hst. reflexivity.
Qed.

(** A printer API answering 409 to both operations. *)
Lemma printer_api_error_witness :
  let r := mk_response 409 (Some "application/json"%string) [] None
             (inr (JDict [("error"%string,
                           JStr "Printer is not operational")])) in
  let env := Sample.env (Sample.always (Responds r)) in
  get_printer_status env Sample.w0 =
  (Raise (HTTPException 409 "Failed to fetch data from OctoPrint"),
   after Sample.w0 (printer_request env))
  /\
  list_files env Sample.w0 =
  (Raise (HTTPException 409 "Failed to fetch file list from OctoPrint"),
   after Sample.w0 (files_request env)).
Proof.
  intros r env.
  assert (Hst : status_code r <> 200) by (simpl; lia).
  destruct (printer_api_error_propagated env Sample.w0 r Hst) as [H1 H2].
  split; [apply H1 | apply H2]; reflexivity.
Defined.

(** C6 as stated fails: the detail of the failure does not carry the text
    the printer API sent; two different upstream texts give one and the
    same detail. *)
Lemma upstream_detail_not_propagated :
  let reply_with (text : string) :=
    Sample.printer 409 (JDict [("error"%string, JStr text)]) in
  let run (text : string) :=
    fst (get_printer_status (Sample.env (Sample.always (reply_with text)))
           Sample.w0) in
  run "Printer is not operational"%string =
    Raise (HTTPException 409 "Failed to fetch data from OctoPrint") /\
  run "Printer is not operational"%string = run "Conflict"%string /\
  PyStr.str_in "Printer is not operational"
    "Failed to fetch data from OctoPrint" = false.
Proof. repeat split. Qed.

(** C9.  With [x], [y], [z] and [e] all [None] and [speed] set, the G-code
    line is "G0 F" followed by the formatted speed, with no axis word; the
    length test does not fire, the line is posted to the printer, and the
    error 400 "No movement axis specified" is not raised. *)
Theorem move_with_speed_only (env : Env) (w : world) (v : spec_float) :
  let movement := mk_MovementControl None None None None (Some v) in
  let gcode_command := ("G0 F" ++ str_float env v)%string in
  gcode_of env movement = gcode_command /\
  sent (snd (move_printer env movement w)) =
    sent w ++ [move_request env gcode_command] /\
  fst (move_printer env movement w) <>
    Raise (HTTPException 400 "No movement axis specified").
Proof.
  intros movement gcode_command.
  split; [reflexivity |].
  unfold move_printer, move_request, HEADERS.
  change (gcode_of env movement) with gcode_command.
  change (String.length gcode_command =? 2)%nat with false.
  unfold_monad.
  destruct (upstream env (sent w) _) as [r | k msg]; cbn.
  - destruct (status_code r =? 204); cbn; split;
      [reflexivity | discriminate | reflexivity | discriminate].
  - split; [reflexivity | discriminate].
Qed.

(** * Facts about [str] searching, case and stripping *)

Section StrFacts.
Local Open Scope string_scope.

Lemma append_assoc (a b c : string) : (a ++ b) ++ c = a ++ (b ++ c).
Proof. induction a as [|x a IH]; simpl; [reflexivity | now rewrite IH]. Qed.

Lemma str_startswith_iff (sub s : string) :
  PyStr.startswith sub s = true <-> exists post, s = sub ++ post.
Proof.
  revert s; induction sub as [|a sub IH]; intros s; simpl.
  - split; eauto.
  - destruct s as [|b s].
    + split; [discriminate | intros [post H]; discriminate].
    + rewrite andb_true_iff, IH, Ascii.eqb_eq. split.
      * intros [-> [post ->]]. eauto.
      * intros [post H]. injection H as -> ->. eauto.
Qed.

Lemma str_in_iff (sub s : string) :
  PyStr.str_in sub s = true <-> exists pre post, s = pre ++ sub ++ post.
Proof.
  split.
  - induction s as [|c s IH].
    + simpl. rewrite orb_false_r, str_startswith_iff.
      intros [post ->]. now exists EmptyString, post.
    + simpl. rewrite orb_true_iff, str_startswith_iff.
      intros [[post H] | H].
      * now exists EmptyString, post.
      * destruct (IH H) as (pre & post & ->). now exists (String c pre), post.
  - intros (pre & post & ->). induction pre as [|c pre IH].
    + assert (H : PyStr.startswith sub (sub ++ post) = true)
        by (apply str_startswith_iff; eauto).
      simpl. destruct (sub ++ post); simpl; now rewrite H.
    + simpl. rewrite IH. apply orb_true_r.
Qed.

Lemma lower_app (a b : string) :
  PyStr.lower (a ++ b) = PyStr.lower a ++ PyStr.lower b.
Proof. induction a as [|x a IH]; simpl; [reflexivity | now rewrite IH]. Qed.

Lemma lower_split (s a b : string) :
  PyStr.lower s = a ++ b ->
  exists a' b', s = a' ++ b' /\ PyStr.lower a' = a /\ PyStr.lower b' = b.
Proof.
  revert s; induction a as [|x a IH]; intros s H.
  - now exists EmptyString, s.
  - destruct s as [|c s]; [discriminate |].
    simpl in H. injection H as Hc Hs.
    destruct (IH _ Hs) as (a' & b' & -> & Ha & Hb).
    exists (String c a'), b'. simpl. now rewrite Hc, Ha, Hb.
Qed.

(** The code's test on the lower-cased text is containment up to case. *)
Lemma str_in_lower (kw body : string) :
  PyStr.str_in (PyStr.lower kw) (PyStr.lower body) = true <->
  contains_ci kw body.
Proof.
  rewrite str_in_iff. unfold contains_ci, eq_ci. split.
  - intros (pre & post & H).
    apply lower_split in H as (pre' & r & -> & _ & Hr).
    apply lower_split in Hr as (mid & post' & -> & Hm & _).
    now exists pre', mid, post'.
  - intros (pre & mid & post & -> & Hm).
    exists (PyStr.lower pre), (PyStr.lower post).
    now rewrite !lower_app, Hm.
Qed.

Lemma rstrip_cons (c : ascii) (s : string) :
  (PyStr.rstrip (String c s) = EmptyString /\
   PyStr.rstrip s = EmptyString /\ PyStr.isspace c = true)
  \/ PyStr.rstrip (String c s) = String c (PyStr.rstrip s).
Proof.
  simpl. destruct (PyStr.rstrip s); [| now right].
  destruct (PyStr.isspace c); [left | right]; auto.
Qed.

Lemma startswith_rstrip (kw s : string) :
  no_space kw = true ->
  PyStr.startswith kw (PyStr.rstrip s) = PyStr.startswith kw s.
Proof.
  revert kw; induction s as [|c s IH]; intros kw Hk; [reflexivity |].
  destruct kw as [|k kw]; [reflexivity |].
  simpl in Hk. apply andb_true_iff in Hk as [Hk Hkw].
  apply negb_true_iff in Hk.
  destruct (rstrip_cons c s) as [(E & Es & Hc) | E]; rewrite E.
  - simpl. destruct (Ascii.eqb_spec k c) as [-> |]; [congruence | reflexivity].
  - simpl. now rewrite IH.
Qed.

Lemma str_in_rstrip (kw s : string) :
  no_space kw = true ->
  PyStr.str_in kw (PyStr.rstrip s) = PyStr.str_in kw s.
Proof.
  intros Hk. induction s as [|c s IH]; [reflexivity |].
  pose proof (startswith_rstrip kw (String c s) Hk) as Hsw.
  destruct (rstrip_cons c s) as [(E & Es & Hc) | E]; rewrite E in *.
  - change (PyStr.str_in kw (String c s))
      with (PyStr.startswith kw (String c s) || PyStr.str_in kw s).
    rewrite <- IH, Es, <- Hsw. simpl.
    now destruct (PyStr.startswith kw EmptyString).
  - change (PyStr.str_in kw (String c (PyStr.rstrip s)))
      with (PyStr.startswith kw (String c (PyStr.rstrip s))
            || PyStr.str_in kw (PyStr.rstrip s)).
    rewrite Hsw, IH. reflexivity.
Qed.

Lemma str_in_lstrip (kw s : string) :
  no_space kw = true ->
  PyStr.str_in kw (PyStr.lstrip s) = PyStr.str_in kw s.
Proof.
  intros Hk. induction s as [|c s IH]; [reflexivity |].
  simpl PyStr.lstrip. destruct (PyStr.isspace c) eqn:Hc; [| reflexivity].
  rewrite IH.
  change (PyStr.str_in kw (String c s))
    with (PyStr.startswith kw (String c s) || PyStr.str_in kw s).
  destruct kw as [|k kw]; [now destruct s |].
  simpl in Hk. apply andb_true_iff in Hk as [Hk _].
  apply negb_true_iff in Hk. simpl.
  destruct (Ascii.eqb_spec k c) as [-> |]; [congruence | reflexivity].
Qed.

(** What [kw in Body.lower().strip()] decides, for a lower-case keyword
    without white space. *)
Lemma keyword_test (kw body : string) :
  no_space kw = true -> PyStr.lower kw = kw ->
  (PyStr.str_in kw (PyStr.strip (PyStr.lower body)) = true <->
   contains_ci kw body).
Proof.
  intros Hk Hl. unfold PyStr.strip.
  rewrite str_in_rstrip, str_in_lstrip by assumption.
  rewrite <- Hl at 1. apply str_in_lower.
Qed.

Lemma append_inj_l (a b c : string) : a ++ b = a ++ c -> b = c.
Proof.
  induction a as [|x a IH]; simpl; [auto |].
  intros H. injection H as H. auto.
Qed.

End StrFacts.

(** * The webhook *)

Lemma get_printer_status_sends_one (env : Env) (w : world) :
  sent (snd (get_printer_status env w)) = sent w ++ [printer_request env].
Proof.
  unfold get_printer_status, printer_request, HEADERS. unfold_monad.
  destruct (upstream env (sent w) _) as [r | k msg]; cbn; [| reflexivity].
  destruct (status_code r =? 200); cbn; [| reflexivity].
  destruct (json_result r) as [err | data]; cbn;
    [destruct (is_RequestException err); reflexivity |].
  destruct (getitem data "state") as [err | st]; cbn;
    [destruct (is_RequestException err); reflexivity |].
  destruct (getitem st "text") as [err | txt]; cbn;
    [destruct (is_RequestException err); reflexivity |].
  destruct (getitem data "temperature") as [err | temp]; cbn;
    [destruct (is_RequestException err); reflexivity |].
  destruct (PrinterState_init env txt temp) as [err | ps]; cbn;
    [destruct (is_RequestException err); reflexivity | reflexivity].
Qed.

(** Whatever [list_files] returns is the dict [{"files": [...]}]. *)
Lemma list_files_shape (env : Env) (w w' : world) (files : json) :
  list_files env w = (Ret files, w') ->
  exists names, files = JDict [("files"%string, JList names)].
Proof.
  unfold list_files, HEADERS. unfold_monad.
  destruct (upstream env (sent w) _) as [r | k msg]; cbn; [| discriminate].
  destruct (status_code r =? 200); cbn; [| discriminate].
  destruct (json_result r) as [err | data]; cbn;
    [destruct (is_RequestException err); discriminate |].
  destruct (py_in "files" data) as [err | [|]]; cbn;
    [destruct (is_RequestException err); discriminate | | discriminate].
  destruct (getitem data "files") as [err | fs]; cbn;
    [destruct (is_RequestException err); discriminate |].
  destruct (py_iter fs) as [err | items]; cbn;
    [destruct (is_RequestException err); discriminate |].
  destruct (names_of items) as [err | names]; cbn;
    [destruct (is_RequestException err); discriminate |].
  intros [= <- _]. eauto.
Qed.

Lemma printer_is_not_files (env : Env) :
  printer_request env <> files_request env.
Proof.
  unfold printer_request, files_request. intros H.
  injection H as H. apply append_inj_l in H. discriminate.
Qed.

(** The branch taken when the keyword test on "status" succeeds. *)
Lemma webhook_on_status
  (env : Env) (form_data : list (string * string)) (body : string)
  (w : world) :
  form_get "Body" form_data = Some body ->
  PyStr.str_in "status" (PyStr.strip (PyStr.lower body)) = true ->
  whatsapp_webhook env form_data w =
  match get_printer_status env w with
  | (Ret printer_status, w') =>
      (Ret (twiml_str env [status_text env printer_status]), w')
  | (Raise err, w') => (Raise err, w')
  end.
Proof.
  intros Hbody Hs. unfold whatsapp_webhook. rewrite Hbody, Hs.
  unfold bind, ret.
  now destruct (get_printer_status env w) as [[ps | err] w'].
Qed.

(** C10.  When the [Body] contains both "status" and "files", the webhook
    takes the status branch: its outcome is the one built from
    [get_printer_status], and the only request it sends is the one to
    [/printer]; the request to [/files] is not made. *)
Theorem status_takes_precedence
  (env : Env) (form_data : list (string * string)) (body : string)
  (w : world) :
  form_get "Body" form_data = Some body ->
  contains_ci "status" body ->
  contains_ci "files" body ->
  whatsapp_webhook env form_data w =
  match get_printer_status env w with
  | (Ret printer_status, w') =>
      (Ret (twiml_str env [status_text env printer_status]), w')
  | (Raise err, w') => (Raise err, w')
  end
  /\
  sent (snd (whatsapp_webhook env form_data w)) =
    sent w ++ [printer_request env]
  /\
  ~ In (files_request env) [printer_request env].
Proof.
  intros Hbody Hs _.
  apply (keyword_test "status" body eq_refl eq_refl) in Hs.
  pose proof (webhook_on_status env form_data body w Hbody Hs) as Hrun.
  split; [exact Hrun |]. split.
  - rewrite Hrun. rewrite <- get_printer_status_sends_one.
    now destruct (get_printer_status env w) as [[ps | err] w'].
  - intros [H | []]. now apply printer_is_not_files in H.
Qed.

(** A message naming both keywords, files first. *)
Lemma status_takes_precedence_witness :
  let env :=
    Sample.env (Sample.always (Sample.printer 200
      (JDict [("state"%string, JDict [("text"%string, JStr "Printing")]);
              ("temperature"%string, JDict []);
              ("files"%string, JList [])]))) in
  let form_data := [("Body", "Files and Status")]%string in
  sent (snd (whatsapp_webhook env form_data Sample.w0)) =
    [printer_request env]
  /\
  fst (whatsapp_webhook env form_data Sample.w0) =
  Ret (String.concat EmptyString
         [Sample.xml_declaration;
          "<Response><Message>Printer Status: Printing";
          String "010" "Temperatures: {}</Message></Response>"]%string).
Proof.
  intros env form_data.
  assert (Hs : contains_ci "status" "Files and Status").
  { exists "Files and "%string, "Status"%string, EmptyString.
    split; reflexivity. }
  assert (Hf : contains_ci "files" "Files and Status").
  { exists EmptyString, "Files"%string, " and Status"%string.
    split; reflexivity. }
  destruct (status_takes_precedence env form_data "Files and Status"
              Sample.w0 eq_refl Hs Hf) as (Hrun & Hsent & _).
  split; [exact Hsent |]. rewrite Hrun. reflexivity.
Defined.

(** * Further properties of the frame extractor *)

Lemma ready_app (delimiter a b : bytes) :
  ready delimiter a = true -> ready delimiter (a ++ b) = true.
Proof.
  unfold ready. intros H.
  apply andb_true_iff in H as [H H3]. apply andb_true_iff in H as [H1 H2].
  rewrite (contains_app _ _ b H1).
  apply negb_true_iff in H2, H3.
  rewrite !find_app by assumption. now rewrite H2, H3.
Qed.

(** As long as the test fails on the whole stream, the loop reads it to the
    end and keeps every byte. *)
Lemma loop_not_ready (delimiter : bytes) (chunks : list bytes) :
  forall buf,
    ready delimiter (buf ++ concat chunks) = false ->
    iter_content_loop delimiter buf chunks = Exhausted (buf ++ concat chunks).
Proof.
  induction chunks as [|chunk more IH]; intros buf H; simpl.
  - now rewrite app_nil_r.
  - simpl in H. rewrite app_assoc in H.
    assert (Hr : ready delimiter (buf ++ chunk) = false).
    { destruct (ready delimiter (buf ++ chunk)) eqn:E; [| reflexivity].
      now rewrite (ready_app _ _ (concat more) E) in H. }
    rewrite (IH _ H), app_assoc. unfold ready in Hr.
    destruct (contains delimiter (buf ++ chunk)); [| reflexivity].
    simpl in Hr. now rewrite Hr.
Qed.

Lemma slice_app_prefix (b tl : bytes) (lo hi : nat) :
  (hi <= length b)%nat ->
  slice (b ++ tl) (Z.of_nat lo) (Z.of_nat hi) =
  slice b (Z.of_nat lo) (Z.of_nat hi).
Proof.
  intros Hhi. unfold slice, clamp. rewrite length_app.
  destruct (Z.ltb_spec (Z.of_nat lo) 0); [lia |].
  destruct (Z.ltb_spec (Z.of_nat hi) 0); [lia |].
  rewrite !(Z.min_l (Z.of_nat hi)) by lia.
  destruct (Nat.le_gt_cases lo hi) as [Hle | Hgt].
  - rewrite !(Z.min_l (Z.of_nat lo)) by lia. rewrite Nat2Z.id.
    rewrite skipn_app. replace (lo - length b)%nat with 0%nat by lia.
    simpl skipn at 2. rewrite firstn_app.
    replace (Z.to_nat (Z.of_nat hi - Z.of_nat lo) - length (skipn lo b))%nat
      with 0%nat by (rewrite length_skipn; lia).
    simpl. apply app_nil_r.
  - replace (Z.to_nat (Z.of_nat hi - Z.min (Z.of_nat lo)
                         (Z.of_nat (length b + length tl)))) with 0%nat by lia.
    replace (Z.to_nat (Z.of_nat hi - Z.min (Z.of_nat lo)
                         (Z.of_nat (length b)))) with 0%nat by lia.
    reflexivity.
Qed.

(** X1.  Whatever the stream and the chunking, a value the loop returns as
    a frame is either a whole image, from a start marker through an end
    marker, or the empty byte string. *)
Theorem emitted_frame_whole_or_empty
  (delimiter buf : bytes) (chunks : list bytes) (frame rest : bytes) :
  iter_content_loop delimiter buf chunks = Emitted frame rest ->
  (exists mid, frame = SOI ++ mid ++ EOI) \/ frame = [].
Proof.
  intros H. apply loop_emitted_inv in H as (b & Hb & -> & _).
  unfold ready in Hb. apply andb_true_iff in Hb as [Hb H3].
  apply andb_true_iff in Hb as [_ H2]. apply negb_true_iff in H2, H3.
  destruct (find_found _ _ H2) as (s & Is & ->).
  destruct (find_found _ _ H3) as (e & Ie & ->).
  pose proof (markers_apart b s e Is Ie) as Hne.
  destruct (Nat.lt_ge_cases s e) as [Hlt | Hge].
  - left.
    destruct (markers_split b s e Is Ie Hlt) as (pre & mid & tl & Eb & Lp & Le).
    destruct (frame_slices pre mid tl) as [E1 _].
    rewrite <- Eb, Lp, <- Le in E1. eauto.
  - right.
    assert (Hlt : (e < s)%nat) by lia.
    destruct (two_markers_split xd9 xd8 b e s ltac:(discriminate) Ie Is Hlt)
      as (pre & mid & tl & _ & Lp & Le).
    replace (Z.of_nat e + 2) with (Z.of_nat (e + 2)) by lia.
    apply slice_empty. lia.
Qed.

(** A run that returns a whole image. *)
Lemma emitted_frame_whole_or_empty_witness :
  (exists mid, [xff; xd8; x41; x42; xff; xd9] = SOI ++ mid ++ EOI)
  \/ [xff; xd8; x41; x42; xff; xd9] = [].
Proof.
  apply (emitted_frame_whole_or_empty delim_frame []
           [delim_frame; [x0a; xff; xd8; x41]; [x42; xff; xd9; x0a]]
           [xff; xd8; x41; x42; xff; xd9] [x0a]).
  reflexivity.
Defined.

(** X2.  The frame of a run is a function of the stream as a whole: a
    frame is returned exactly when the whole stream holds the delimiter and
    both markers, and it is the slice from the first start marker to two
    bytes past the first end marker of the whole stream.  Two ways of
    cutting the same bytes into chunks therefore give the same frame. *)
Theorem frame_independent_of_chunking
  (delimiter : bytes) (chunks : list bytes) :
  let whole := concat chunks in
  frame_of (iter_content_loop delimiter [] chunks) =
    (if ready delimiter whole
     then Some (slice whole (find whole SOI) (find whole EOI + 2))
     else None)
  /\
  forall chunks',
    concat chunks' = whole ->
    frame_of (iter_content_loop delimiter [] chunks') =
    frame_of (iter_content_loop delimiter [] chunks).
Proof.
  assert (Hchar : forall cs,
    frame_of (iter_content_loop delimiter [] cs) =
    if ready delimiter (concat cs)
    then Some (slice (concat cs) (find (concat cs) SOI)
                 (find (concat cs) EOI + 2))
    else None).
  { intros cs. destruct (ready delimiter (concat cs)) eqn:Hr.
    - destruct (loop_emits delimiter cs [] (ready_nil _) Hr)
        as (n & Hn & Hb & Hrun).
      cbv zeta in Hb, Hrun.
      change ([] ++ concat (firstn (S n) cs))
        with (concat (firstn (S n) cs)) in Hb, Hrun.
      rewrite Hrun. unfold frame_of. f_equal.
      unfold ready in Hb. apply andb_true_iff in Hb as [Hb H3].
      apply andb_true_iff in Hb as [_ H2]. apply negb_true_iff in H2, H3.
      rewrite (concat_firstn_skipn (S n) cs).
      set (b := concat (firstn (S n) cs)) in *.
      rewrite !find_app by assumption.
      destruct (find_found _ _ H2) as (s & Is & Fs).
      destruct (find_found _ _ H3) as (e & Ie & Fe).
      rewrite Fs, Fe.
      apply index_of_bound in Ie. change (length EOI) with 2%nat in Ie.
      replace (Z.of_nat e + 2) with (Z.of_nat (e + 2)) by lia.
      symmetry. apply slice_app_prefix. lia.
    - now rewrite (loop_not_ready delimiter cs [] Hr). }
  intros whole. split; [apply Hchar |].
  intros chunks' E. rewrite !Hchar, E. reflexivity.
Qed.

(** One image delivered in one chunk or byte by byte. *)
Lemma frame_independent_of_chunking_witness :
  frame_of (iter_content_loop delim_frame []
              [[x2d]; [x2d; x66; x72; x61]; [x6d; x65; xff]; [xd8; xff];
               [xd9]]) =
  frame_of (iter_content_loop delim_frame []
              [delim_frame ++ [xff; xd8; xff; xd9]]).
Proof.
  apply (proj2 (frame_independent_of_chunking delim_frame
                  [delim_frame ++ [xff; xd8; xff; xd9]])).
  reflexivity.
Defined.

(** X3.  A stream in which a start marker or an end marker is still
    missing yields no frame, and the buffer keeps every byte received. *)
Theorem incomplete_stream_retained
  (delimiter buf : bytes) (chunks : list bytes) :
  find (buf ++ concat chunks) SOI = -1 \/
  find (buf ++ concat chunks) EOI = -1 ->
  iter_content_loop delimiter buf chunks = Exhausted (buf ++ concat chunks).
Proof.
  intros H. apply loop_not_ready. unfold ready.
  destruct H as [-> | ->]; simpl.
  - now rewrite andb_false_r.
  - now rewrite andb_false_r.
Qed.

(** A start marker and image data, the end marker not yet received. *)
Lemma incomplete_stream_retained_witness :
  iter_content_loop delim_frame [] [delim_frame; [xff; xd8; x41]; [x42]] =
  Exhausted (delim_frame ++ [xff; xd8; x41; x42]).
Proof.
  apply (incomplete_stream_retained delim_frame []
           [delim_frame; [xff; xd8; x41]; [x42]]).
  right. reflexivity.
Defined.

(** X4.  The loop stops reading at the chunk that completes the first
    frame: whatever the camera sends afterwards changes neither the frame
    nor the buffer left behind. *)
Theorem loop_stops_at_first_frame
  (delimiter : bytes) (chunks more : list bytes) :
  forall buf frame rest,
    iter_content_loop delimiter buf chunks = Emitted frame rest ->
    iter_content_loop delimiter buf (chunks ++ more) = Emitted frame rest.
Proof.
  induction chunks as [|chunk tl IH]; intros buf frame rest; simpl.
  - discriminate.
  - destruct (contains delimiter (buf ++ chunk)); [| apply IH].
    destruct (negb (find (buf ++ chunk) SOI =? -1)
              && negb (find (buf ++ chunk) EOI =? -1)); [auto | apply IH].
Qed.

(** A second image after the first one is not looked at. *)
Lemma loop_stops_at_first_frame_witness :
  iter_content_loop delim_frame []
    ([delim_frame ++ [xff; xd8; x01; xff; xd9]]
     ++ [delim_frame ++ [xff; xd8; x02; xff; xd9]]) =
  Emitted [xff; xd8; x01; xff; xd9] [].
Proof.
  apply (loop_stops_at_first_frame delim_frame
           [delim_frame ++ [xff; xd8; x01; xff; xd9]]
           [delim_frame ++ [xff; xd8; x02; xff; xd9]]).
  reflexivity.
Defined.

(** * Further properties of [get_camera_frame] *)

Section SplitFacts.
Local Open Scope string_scope.

Lemma append_nil_r (s : string) : s ++ EmptyString = s.
Proof. induction s as [|c s IH]; simpl; [reflexivity | now rewrite IH]. Qed.

Lemma string_of_list_ascii_snoc (l : list ascii) (c : ascii) (s : string) :
  string_of_list_ascii (l ++ [c]) ++ s = string_of_list_ascii l ++ String c s.
Proof. induction l as [|a l IH]; simpl; [reflexivity | now rewrite IH]. Qed.

Lemma split_go_no_separator (sep : string) :
  forall s cur,
    PyStr.str_in sep s = false ->
    PyStr.split_go sep s 0 cur = [string_of_list_ascii (rev cur) ++ s].
Proof.
  induction s as [|c s IH]; intros cur H.
  - simpl. now rewrite append_nil_r.
  - change (PyStr.str_in sep (String c s))
      with (PyStr.startswith sep (String c s) || PyStr.str_in sep s) in H.
    apply orb_false_iff in H as [H1 H2].
    simpl PyStr.split_go. rewrite H1, (IH _ H2). simpl rev.
    now rewrite string_of_list_ascii_snoc.
Qed.

End SplitFacts.

(** X5.  A Content-Type header without a [boundary=] parameter is taken
    whole as the boundary: [split("boundary=")[-1]] is then the header
    itself, so the delimiter searched for is "--" followed by the full
    header value. *)
Theorem boundary_defaults_to_whole_header (ct : string) :
  PyStr.str_in "boundary=" ct = false ->
  PyStr.split ct "boundary=" = [ct] /\
  last (PyStr.split ct "boundary=") EmptyString = ct.
Proof.
  intros H. unfold PyStr.split.
  rewrite (split_go_no_separator _ _ [] H). simpl. auto.
Qed.

Lemma boundary_defaults_to_whole_header_witness :
  last (PyStr.split "image/jpeg" "boundary=") EmptyString
  = "image/jpeg"%string.
Proof.
  apply (boundary_defaults_to_whole_header "image/jpeg"). reflexivity.
Defined.

(** X6.  Each call of [get_camera_frame] sends exactly one request, the GET
    of the camera stream.  It prints at most one line, and only when it
    returns [None]: a frame is never accompanied by an error line, and a
    stream that ends cleanly without a frame gives [None] silently. *)
Theorem get_camera_frame_effects (env : Env) (w : world) :
  let run := get_camera_frame env w in
  sent (snd run) = sent w ++ [frame_request env] /\
  (console (snd run) = console w \/
   fst run = Ret None /\
   exists err,
     console (snd run) =
     console w ++ [Print ("Error fetching frame: " ++ str_exn err)%string])
  /\
  (forall r ct buffer,
      upstream env (sent w) (frame_request env) = Responds r ->
      status_code r = 200 ->
      content_type r = Some ct ->
      iter_content_loop
        (PyStr.encode ("--" ++ last (PyStr.split ct "boundary=") EmptyString))
        [] (iter_content r) = Exhausted buffer ->
      iter_error r = None ->
      run = (Ret None, after w (frame_request env))).
Proof.
  unfold get_camera_frame, frame_request, after. unfold_monad.
  destruct (upstream env (sent w) _) as [r | k msg] eqn:Hup; cbn.
  - destruct (status_code r =? 200) eqn:Hst; cbn.
    + destruct (content_type r) as [ct |] eqn:Hct; cbn.
      * destruct (iter_content_loop _ _ _) eqn:Hl; cbn.
        -- split; [reflexivity |]. split; [now left |].
           intros r0 ct0 b [= <-] _ Hct0 Hl' _.
           rewrite Hct in Hct0. injection Hct0 as <-. congruence.
        -- destruct (iter_error r) as [err |] eqn:Herr; cbn.
           ++ split; [reflexivity |]. split; [right; eauto |].
              intros r0 ct0 b [= <-] _ _ _ H. congruence.
           ++ split; [reflexivity |]. split; [now left |]. reflexivity.
      * split; [reflexivity |].
        split; [right; split; [| exists (KeyError "content-type")];
                reflexivity |].
        intros r0 ct0 b [= <-] _ H. congruence.
    + split; [reflexivity |].
      split; [right; split;
              [| exists (Exception
                   ("Unable to connect to the camera stream. Status code: "
                    ++ PyStr.str_int (status_code r))%string)];
              reflexivity |].
      intros r0 ct0 b [= <-] H. rewrite H in Hst. discriminate.
  - split; [reflexivity |].
    split; [right; split; [| exists (RequestException k msg)]; reflexivity |].
    intros; discriminate.
Qed.

(** A camera whose stream ends before any image arrived. *)
Lemma get_camera_frame_effects_witness :
  get_camera_frame
    (Sample.env (Sample.always (Sample.camera [delim_frame; [x0d; x0a]])))
    Sample.w0 =
  (Ret None,
   after Sample.w0
     (frame_request
        (Sample.env (Sample.always (Sample.camera [delim_frame; [x0d; x0a]]))))).
Proof.
  apply (proj2 (proj2 (get_camera_frame_effects
           (Sample.env (Sample.always (Sample.camera [delim_frame; [x0d; x0a]])))
           Sample.w0))
         _ "multipart/x-mixed-replace; boundary=frame"%string
         (delim_frame ++ [x0d; x0a]) eq_refl eq_refl eq_refl eq_refl eq_refl).
Defined.

(** * Further properties of the camera probe *)

(** X7.  Each probe sends exactly one request, the GET of the camera URL
    with the API key header and a timeout of 5 seconds, and writes exactly
    one log record.  A status other than 200 is reported with that status
    code in the body; a connect timeout, though also a connection error, is
    reported as "Connection timed out" because the timeout clause comes
    first. *)
Theorem get_camera_status_report (env : Env) (w : world) :
  let run := get_camera_status env w in
  sent (snd run) = sent w ++ [probe_request env] /\
  timeout (probe_request env) = Some 5 /\
  (exists record, console (snd run) = console w ++ [record]) /\
  match upstream env (sent w) (probe_request env) with
  | Responds r =>
      fst run =
      Ret (if status_code r =? 200
           then JDict [("camera_status"%string, JStr "online")]
           else JDict [("camera_status"%string, JStr "offline");
                       ("status_code"%string, JInt (status_code r))])
  | Fails ConnectTimeout _ =>
      fst run = Ret (JDict [("camera_status"%string, JStr "offline");
                            ("error"%string, JStr "Connection timed out")])
  | Fails _ _ => True
  end.
Proof.
  unfold get_camera_status, probe_request, HEADERS. unfold_monad.
  destruct (upstream env (sent w) _) as [r | k msg]; cbn.
  - destruct (status_code r =? 200); cbn; repeat split; eauto.
  - destruct k; cbn; repeat split; eauto.
Qed.

(** * Further properties of the printer reads *)

Lemma assoc_existsb (k : string) (d : list (string * json)) :
  existsb (fun kv => String.eqb (fst kv) k) d =
  match assoc k d with
  | Some _ => true
  | None => false
  end.
Proof.
  induction d as [|[k' v] d IH]; simpl; [reflexivity |].
  destruct (String.eqb k' k); simpl; [reflexivity | exact IH].
Qed.

Lemma names_of_all (items ns : list json) :
  Forall2 names items ns -> names_of items = inr ns.
Proof.
  induction 1 as [| file n items ns (d & -> & Hn) _ IH]; simpl.
  - reflexivity.
  - now rewrite Hn, IH.
Qed.

Lemma names_of_first_bad (good ns : list json) (bad : json) (tl : list json)
  (err : exn) :
  Forall2 names good ns -> getitem bad "name" = inl err ->
  names_of (good ++ bad :: tl) = inl err.
Proof.
  induction 1 as [| file n items ns' (d & -> & Hn) _ IH]; intros Hb; simpl.
  - now rewrite Hb.
  - simpl in IH. now rewrite Hn, (IH Hb).
Qed.

(** X8.  When the printer API answers 200 with an object holding
    [state.text] and [temperature], [get_printer_status] returns the
    [PrinterState] validated from exactly these two values, after one
    request. *)
Theorem get_printer_status_success
  (env : Env) (w : world) (r : response)
  (d sd : list (string * json)) (txt temp : json) (ps : PrinterState) :
  upstream env (sent w) (printer_request env) = Responds r ->
  status_code r = 200 ->
  json_result r = inr (JDict d) ->
  assoc "state" d = Some (JDict sd) ->
  assoc "text" sd = Some txt ->
  assoc "temperature" d = Some temp ->
  PrinterState_init env txt temp = inr ps ->
  get_printer_status env w = (Ret ps, after w (printer_request env)).
Proof.
  intros Hup Hst Hj Hs Ht Hq Hv.
  unfold get_printer_status, HEADERS. unfold_monad.
  fold (printer_request env). rewrite Hup. cbn.
  rewrite Hst, Hj. cbn. rewrite Hs. cbn. rewrite Ht, Hq. cbn.
  rewrite Hv. reflexivity.
Qed.

Lemma get_printer_status_success_witness :
  let body :=
    JDict [("state"%string, JDict [("text"%string, JStr "Operational")]);
           ("temperature"%string,
            JDict [("bed"%string, JDict [("actual"%string, JInt 60)])])] in
  let env := Sample.env (Sample.always (Sample.printer 200 body)) in
  get_printer_status env Sample.w0 =
  (Ret (mk_PrinterState "Operational"
          [("bed"%string, JDict [("actual"%string, JInt 60)])]),
   after Sample.w0 (printer_request env)).
Proof.
  intros body env.
  apply (get_printer_status_success env Sample.w0 _ _ _ _ _ _
           eq_refl eq_refl eq_refl eq_refl eq_refl eq_refl eq_refl).
Defined.

(** X9.  A 200 answer whose object lacks the key [state], or has it but
    lacks [temperature], is not turned into an HTTP error by the endpoint:
    the [KeyError] escapes the handler, which only catches request errors,
    and the route answers 500. *)
Theorem get_printer_status_missing_key
  (env : Env) (w : world) (r : response) (d : list (string * json)) :
  upstream env (sent w) (printer_request env) = Responds r ->
  status_code r = 200 ->
  json_result r = inr (JDict d) ->
  (assoc "state" d = None ->
   get_printer_status env w =
   (Raise (KeyError "state"), after w (printer_request env)))
  /\
  (forall sd txt,
      assoc "state" d = Some (JDict sd) -> assoc "text" sd = Some txt ->
      assoc "temperature" d = None ->
      get_printer_status env w =
      (Raise (KeyError "temperature"), after w (printer_request env)))
  /\
  http_status (@Raise PrinterState (KeyError "state")) = 500.
Proof.
  intros Hup Hst Hj.
  unfold get_printer_status, HEADERS. unfold_monad.
  fold (printer_request env). rewrite Hup. cbn. rewrite Hst, Hj. cbn.
  split; [| split; [| reflexivity]].
  - intros ->. reflexivity.
  - intros sd txt -> Ht ->. cbn. rewrite Ht. reflexivity.
Qed.

Lemma get_printer_status_missing_key_witness :
  let env :=
    Sample.env (Sample.always (Sample.printer 200
      (JDict [("temperature"%string, JDict [])]))) in
  get_printer_status env Sample.w0 =
  (Raise (KeyError "state"), after Sample.w0 (printer_request env)).
Proof.
  intros env.
  apply (proj1 (get_printer_status_missing_key env Sample.w0 _ _
                  eq_refl eq_refl eq_refl)).
  reflexivity.
Defined.

(** X10.  When the request to the printer API itself fails, both reads
    fail with 500 and the text of the request error as detail, after that
    one attempt. *)
Theorem printer_reads_request_failure
  (env : Env) (w : world) (k : requests_kind) (msg : string) :
  (upstream env (sent w) (printer_request env) = Fails k msg ->
   get_printer_status env w =
   (Raise (HTTPException 500 msg), after w (printer_request env)))
  /\
  (upstream env (sent w) (files_request env) = Fails k msg ->
   list_files env w =
   (Raise (HTTPException 500 msg), after w (files_request env))).
Proof.
  split; intros Hup.
  - unfold get_printer_status, HEADERS. unfold_monad.
    fold (printer_request env). now rewrite Hup.
  - unfold list_files, HEADERS. unfold_monad.
    fold (files_request env). now rewrite Hup.
Qed.

Lemma printer_reads_request_failure_witness :
  let env := Sample.env (Sample.always Sample.refused) in
  get_printer_status env Sample.w0 =
  (Raise (HTTPException 500 "Connection refused"),
   after Sample.w0 (printer_request env)).
Proof.
  intros env.
  apply (proj1 (printer_reads_request_failure env Sample.w0
                  ConnectionError "Connection refused")).
  reflexivity.
Defined.

(** X11.  A 200 answer to [GET /files] whose object has no key [files]
    makes [list_files] fail with 404 "No files found". *)
Theorem list_files_without_files_key
  (env : Env) (w : world) (r : response) (d : list (string * json)) :
  upstream env (sent w) (files_request env) = Responds r ->
  status_code r = 200 ->
  json_result r = inr (JDict d) ->
  assoc "files" d = None ->
  list_files env w =
  (Raise (HTTPException 404 "No files found"), after w (files_request env)).
Proof.
  intros Hup Hst Hj Hf.
  unfold list_files, HEADERS. unfold_monad.
  fold (files_request env). rewrite Hup. cbn. rewrite Hst, Hj. cbn.
  rewrite assoc_existsb, Hf. reflexivity.
Qed.

Lemma list_files_without_files_key_witness :
  let env :=
    Sample.env (Sample.always (Sample.printer 200
      (JDict [("free"%string, JInt 1024)]))) in
  list_files env Sample.w0 =
  (Raise (HTTPException 404 "No files found"),
   after Sample.w0 (files_request env)).
Proof.
  intros env.
  apply (list_files_without_files_key env Sample.w0 _ _
           eq_refl eq_refl eq_refl eq_refl).
Defined.

(** X12.  When every entry of the [files] list is an object with a [name],
    [list_files] returns these names, one per entry and in the order of the
    listing, whatever else the entries and the answer hold. *)
Theorem list_files_names_in_order
  (env : Env) (w : world) (r : response) (d : list (string * json))
  (items ns : list json) :
  upstream env (sent w) (files_request env) = Responds r ->
  status_code r = 200 ->
  json_result r = inr (JDict d) ->
  assoc "files" d = Some (JList items) ->
  Forall2 names items ns ->
  list_files env w =
  (Ret (JDict [("files"%string, JList ns)]), after w (files_request env))
  /\ length ns = length items.
Proof.
  intros Hup Hst Hj Hf Hn.
  split; [| symmetry; eapply Forall2_length; eassumption].
  unfold list_files, HEADERS. unfold_monad.
  fold (files_request env). rewrite Hup. cbn. rewrite Hst, Hj. cbn.
  rewrite assoc_existsb, Hf. cbn. rewrite (names_of_all _ _ Hn). reflexivity.
Qed.

Lemma list_files_names_in_order_witness :
  let entry (n : string) (size : Z) :=
    JDict [("size"%string, JInt size); ("name"%string, JStr n)] in
  let env :=
    Sample.env (Sample.always (Sample.printer 200
      (JDict [("free"%string, JInt 1024);
              ("files"%string,
               JList [entry "benchy.gcode"%string 7;
                      entry "cube.gcode"%string 3])]))) in
  list_files env Sample.w0 =
  (Ret (JDict [("files"%string,
                JList [JStr "benchy.gcode"; JStr "cube.gcode"])]),
   after Sample.w0 (files_request env)).
Proof.
  intros entry env.
  apply (list_files_names_in_order env Sample.w0 _ _ _
           [JStr "benchy.gcode"; JStr "cube.gcode"]
           eq_refl eq_refl eq_refl eq_refl).
  repeat constructor; eexists; split; reflexivity.
Defined.

(** X13.  One entry without a [name] spoils the whole listing: the names of
    the entries before it are discarded and the [KeyError] escapes, so the
    route answers 500 instead of listing the other files. *)
Theorem list_files_entry_without_name
  (env : Env) (w : world) (r : response) (d bad : list (string * json))
  (good ns tl : list json) :
  upstream env (sent w) (files_request env) = Responds r ->
  status_code r = 200 ->
  json_result r = inr (JDict d) ->
  assoc "files" d = Some (JList (good ++ JDict bad :: tl)) ->
  Forall2 names good ns ->
  assoc "name" bad = None ->
  list_files env w =
  (Raise (KeyError "name"), after w (files_request env))
  /\ http_status (fst (list_files env w)) = 500.
Proof.
  intros Hup Hst Hj Hf Hn Hb.
  assert (E : list_files env w =
              (Raise (KeyError "name"), after w (files_request env))).
  { unfold list_files, HEADERS. unfold_monad.
    fold (files_request env). rewrite Hup. cbn. rewrite Hst, Hj. cbn.
    rewrite assoc_existsb, Hf. cbn.
    rewrite (names_of_first_bad good ns (JDict bad) tl (KeyError "name") Hn).
    - reflexivity.
    - simpl. now rewrite Hb. }
  split; [exact E | now rewrite E].
Qed.

Lemma list_files_entry_without_name_witness :
  let env :=
    Sample.env (Sample.always (Sample.printer 200
      (JDict [("files"%string,
               JList [JDict [("name"%string, JStr "cube.gcode")];
                      JDict [("path"%string, JStr "folder")];
                      JDict [("name"%string, JStr "benchy.gcode")]])]))) in
  http_status (fst (list_files env Sample.w0)) = 500.
Proof.
  intros env.
  apply (list_files_entry_without_name env Sample.w0 _ _
           [("path"%string, JStr "folder")]
           [JDict [("name"%string, JStr "cube.gcode")]]
           [JStr "cube.gcode"]
           [JDict [("name"%string, JStr "benchy.gcode")]]
           eq_refl eq_refl eq_refl eq_refl).
  - repeat constructor; eexists; split; reflexivity.
  - reflexivity.
Defined.

(** * Further properties of the printer commands *)

Section CommandFacts.
Local Open Scope string_scope.

Lemma length_append (a b : string) :
  String.length (a ++ b) = (String.length a + String.length b)%nat.
Proof. induction a as [|c a IH]; simpl; [reflexivity | now rewrite IH]. Qed.

Lemma add_word_length (env : Env) (letter : string) (v : option spec_float)
  (g : string) :
  (String.length g <= String.length (add_word env letter v g))%nat /\
  (v <> None ->
   String.length g + 1 <= String.length (add_word env letter v g))%nat.
Proof.
  destruct v as [d |]; simpl.
  - rewrite !length_append. simpl. split; intros; lia.
  - split; [lia | congruence].
Qed.

(** The line is the bare "G0" exactly when no field is set. *)
Lemma gcode_length (env : Env) (m : MovementControl) :
  (String.length (gcode_of env m) =? 2)%nat = no_field m.
Proof.
  unfold gcode_of, no_field.
  destruct (add_word_length env "X" (x m) "G0") as [X1 X2].
  destruct (add_word_length env "Y" (y m) (add_word env "X" (x m) "G0"))
    as [Y1 Y2].
  destruct (add_word_length env "Z" (z m)
              (add_word env "Y" (y m) (add_word env "X" (x m) "G0")))
    as [Z1 Z2].
  destruct (add_word_length env "E" (e m)
              (add_word env "Z" (z m)
                 (add_word env "Y" (y m) (add_word env "X" (x m) "G0"))))
    as [E1 E2].
  destruct (add_word_length env "F" (speed m)
              (add_word env "E" (e m)
                 (add_word env "Z" (z m)
                    (add_word env "Y" (y m) (add_word env "X" (x m) "G0")))))
    as [F1 F2].
  change (String.length "G0") with 2%nat in *.
  destruct (x m), (y m), (z m), (e m), (speed m);
    try reflexivity;
    apply Nat.eqb_neq;
    repeat match goal with
           | H : ?v <> None -> _ |- _ =>
               first [ specialize (H ltac:(discriminate)) | clear H ]
           end;
    lia.
Qed.

End CommandFacts.

(** X14.  [move_printer] refuses with 400 "No movement axis specified"
    exactly when none of the five fields is set, and then sends nothing;
    as soon as one field is set, whatever it formats to, one command is
    posted to the printer. *)
Theorem move_printer_refuses_iff_empty
  (env : Env) (w : world) (movement : MovementControl) :
  (no_field movement = true ->
   move_printer env movement w =
   (Raise (HTTPException 400 "No movement axis specified"), w))
  /\
  (no_field movement = false ->
   sent (snd (move_printer env movement w)) =
     sent w ++ [move_request env (gcode_of env movement)] /\
   fst (move_printer env movement w) <>
     Raise (HTTPException 400 "No movement axis specified")).
Proof.
  unfold move_printer. rewrite gcode_length.
  split; intros ->; [reflexivity |].
  unfold move_request, HEADERS. unfold_monad.
  destruct (upstream env (sent w) _) as [r | k msg]; cbn.
  - destruct (status_code r =? 204); cbn; split;
      [reflexivity | discriminate | reflexivity | discriminate].
  - split; [reflexivity | discriminate].
Qed.

Lemma move_printer_refuses_iff_empty_witness :
  sent (snd (move_printer (Sample.env (Sample.always Sample.refused))
               (mk_MovementControl None None (Some Sample.f1500) None None)
               Sample.w0)) =
  [move_request (Sample.env (Sample.always Sample.refused)) "G0 Z1500.0"].
Proof.
  apply (proj2 (move_printer_refuses_iff_empty
                  (Sample.env (Sample.always Sample.refused)) Sample.w0
                  (mk_MovementControl None None (Some Sample.f1500) None None))
           eq_refl).
Defined.

(** X15.  For a movement with a field set, the answer follows the printer:
    204 gives the message "Sent command: " and the line sent, any other
    status is passed on with the detail "Failed to move printer", and a
    failed request gives 500 with the error text. *)
Theorem move_printer_outcomes
  (env : Env) (w : world) (movement : MovementControl) :
  no_field movement = false ->
  fst (move_printer env movement w) =
  match upstream env (sent w) (move_request env (gcode_of env movement)) with
  | Responds r =>
      if status_code r =? 204
      then Ret (JDict [("message"%string,
                        JStr ("Sent command: " ++ gcode_of env movement))])
      else Raise (HTTPException (status_code r) "Failed to move printer")
  | Fails k msg => Raise (HTTPException 500 msg)
  end.
Proof.
  intros H. unfold move_printer. rewrite gcode_length, H.
  unfold move_request, HEADERS. unfold_monad.
  destruct (upstream env (sent w) _) as [r | k msg]; cbn; [| reflexivity].
  now destruct (status_code r =? 204).
Qed.

Lemma move_printer_outcomes_witness :
  fst (move_printer
         (Sample.env (Sample.always (Sample.printer 409 JNone)))
         (mk_MovementControl None None None (Some Sample.f1500) None)
         Sample.w0) =
  Raise (HTTPException 409 "Failed to move printer").
Proof.
  apply (move_printer_outcomes
           (Sample.env (Sample.always (Sample.printer 409 JNone))) Sample.w0
           (mk_MovementControl None None None (Some Sample.f1500) None)
           eq_refl).
Defined.

(** X16.  [send_printer_command] answers 400 without contacting the
    printer for a command outside start/pause/resume/cancel ("Invalid
    command") and for "start" without a file name, be it absent or empty
    ("No file selected for printing"). *)
Theorem send_printer_command_rejections
  (env : Env) (w : world) (command : string) (file_name : option string) :
  (known_command command = false ->
   send_printer_command env command file_name w =
   (Raise (HTTPException 400 "Invalid command"), w))
  /\
  (falsy file_name = true ->
   send_printer_command env "start" file_name w =
   (Raise (HTTPException 400 "No file selected for printing"), w)).
Proof.
  split; intros H; unfold send_printer_command.
  - now rewrite H.
  - cbn. rewrite H. reflexivity.
Qed.

Lemma send_printer_command_rejections_witness :
  send_printer_command (Sample.env (Sample.always Sample.refused))
    "home" None Sample.w0 =
  (Raise (HTTPException 400 "Invalid command"), Sample.w0)
  /\
  send_printer_command (Sample.env (Sample.always Sample.refused))
    "start" (Some EmptyString) Sample.w0 =
  (Raise (HTTPException 400 "No file selected for printing"), Sample.w0).
Proof.
  split.
  - apply (proj1 (send_printer_command_rejections
                    (Sample.env (Sample.always Sample.refused)) Sample.w0
                    "home" None)).
    reflexivity.
  - apply (proj2 (send_printer_command_rejections
                    (Sample.env (Sample.always Sample.refused)) Sample.w0
                    "home" (Some EmptyString))).
    reflexivity.
Defined.

(** X17.  For pause, resume and cancel the command is posted once to
    [/job] and the answer of the printer is not looked at: whatever status
    comes back, 409 or 500 included, the endpoint reports that the command
    was sent successfully; the file name plays no part. *)
Theorem job_command_status_ignored
  (env : Env) (w : world) (command : string) (file_name : option string)
  (r : response) :
  job_command command = true ->
  upstream env (sent w) (job_request env command) = Responds r ->
  send_printer_command env command file_name w =
  (Ret (JDict [("message"%string,
                JStr ("Command '" ++ command ++ "' sent successfully"))]),
   after w (job_request env command)).
Proof.
  intros Hj Hup. unfold send_printer_command.
  assert (Hk : known_command command = true).
  { unfold known_command, job_command in *. simpl in *.
    now rewrite Hj, orb_true_r. }
  rewrite Hk, Hj. simpl negb. cbv iota. unfold HEADERS. unfold_monad.
  fold (api_headers env). fold (job_request env command).
  cbn beta iota delta [negb]. now rewrite Hup.
Qed.

Lemma job_command_status_ignored_witness :
  fst (send_printer_command
         (Sample.env (Sample.always (Sample.printer 409 JNone)))
         "pause" (Some "cube.gcode"%string) Sample.w0) =
  Ret (JDict [("message"%string, JStr "Command 'pause' sent successfully")]).
Proof.
  rewrite (job_command_status_ignored
             (Sample.env (Sample.always (Sample.printer 409 JNone)))
             Sample.w0 "pause" (Some "cube.gcode"%string) _
             eq_refl eq_refl).
  reflexivity.
Defined.

(** X18.  "start" with a file name posts one select-and-print request for
    that file; the endpoint reports success only on 204 and passes any
    other status on. *)
Theorem start_command_outcomes
  (env : Env) (w : world) (name : string) :
  name <> EmptyString ->
  let run := send_printer_command env "start" (Some name) w in
  sent (snd run) = sent w ++ [select_request env name] /\
  fst run =
  match upstream env (sent w) (select_request env name) with
  | Responds r =>
      if status_code r =? 204
      then Ret (JDict [("message"%string,
                        JStr "Command 'start' sent successfully")])
      else Raise (HTTPException (status_code r)
                    "Failed to select and start the file for printing")
  | Fails k msg => Raise (HTTPException 500 msg)
  end.
Proof.
  intros Hne. unfold send_printer_command. cbn.
  destruct name as [|c name]; [congruence |]. cbn.
  unfold HEADERS. unfold_monad.
  fold (api_headers env). fold (select_request env (String c name)).
  destruct (upstream env (sent w) _) as [r | k msg]; cbn.
  - now destruct (status_code r =? 204).
  - split; reflexivity.
Qed.

Lemma start_command_outcomes_witness :
  fst (send_printer_command
         (Sample.env (Sample.always (Sample.printer 404 JNone)))
         "start" (Some "cube.gcode"%string) Sample.w0) =
  Raise (HTTPException 404 "Failed to select and start the file for printing").
Proof.
  rewrite (proj2 (start_command_outcomes
                    (Sample.env (Sample.always (Sample.printer 404 JNone)))
                    Sample.w0 "cube.gcode" ltac:(discriminate))).
  reflexivity.
Defined.

(** X19.  With neither temperature given, [set_temperature] contacts
    nothing and still reports that the command(s) were sent. *)
Theorem set_temperature_nothing_to_set
  (env : Env) (w : world) (temperature : TemperatureControl) :
  hotend_temp temperature = None -> bed_temp temperature = None ->
  set_temperature env temperature w =
  (Ret (JDict [("message"%string,
                JStr "Temperature command(s) sent successfully")]), w).
Proof.
  intros Hh Hb. unfold set_temperature. rewrite Hh, Hb. reflexivity.
Qed.

Lemma set_temperature_nothing_to_set_witness :
  sent (snd (set_temperature (Sample.env (Sample.always Sample.refused))
               (mk_TemperatureControl None None) Sample.w0)) = [].
Proof.
  rewrite (set_temperature_nothing_to_set
             (Sample.env (Sample.always Sample.refused)) Sample.w0
             (mk_TemperatureControl None None) eq_refl eq_refl).
  reflexivity.
Defined.

(** X20.  The hotend is set first, and a refusal there ends the call: the
    printer's status is passed on with "Failed to set hotend temperature"
    and the bed request is not sent, even when a bed temperature was
    given. *)
Theorem set_temperature_hotend_refused
  (env : Env) (w : world) (t : spec_float) (bed : option spec_float)
  (r : response) :
  upstream env (sent w) (tool_request env t) = Responds r ->
  status_code r <> 204 ->
  set_temperature env (mk_TemperatureControl (Some t) bed) w =
  (Raise (HTTPException (status_code r) "Failed to set hotend temperature"),
   after w (tool_request env t)).
Proof.
  intros Hup Hst. apply Z.eqb_neq in Hst.
  unfold set_temperature, HEADERS. unfold_monad. cbn.
  fold (api_headers env). fold (tool_request env t).
  rewrite Hup. cbn. rewrite Hst. reflexivity.
Qed.

Lemma set_temperature_hotend_refused_witness :
  set_temperature (Sample.env (Sample.always (Sample.printer 409 JNone)))
    (mk_TemperatureControl (Some Sample.f1500) (Some Sample.f1500))
    Sample.w0 =
  (Raise (HTTPException 409 "Failed to set hotend temperature"),
   after Sample.w0
     (tool_request (Sample.env (Sample.always (Sample.printer 409 JNone)))
        Sample.f1500)).
Proof.
  apply (set_temperature_hotend_refused
           (Sample.env (Sample.always (Sample.printer 409 JNone)))
           Sample.w0 Sample.f1500 (Some Sample.f1500) _ eq_refl).
  simpl. lia.
Defined.

(** X21.  With both temperatures given and the hotend accepted, the bed
    request goes out second.  If the printer refuses it the call fails with
    "Failed to set bed temperature" although the hotend target has already
    been set; the two are not undone or retried.  Only 204 on both gives
    the success message. *)
Theorem set_temperature_bed_after_hotend
  (env : Env) (w : world) (t b : spec_float) (r1 r2 : response) :
  upstream env (sent w) (tool_request env t) = Responds r1 ->
  status_code r1 = 204 ->
  upstream env (sent w ++ [tool_request env t]) (bed_request env b)
    = Responds r2 ->
  set_temperature env (mk_TemperatureControl (Some t) (Some b)) w =
  (if status_code r2 =? 204
   then Ret (JDict [("message"%string,
                     JStr "Temperature command(s) sent successfully")])
   else Raise (HTTPException (status_code r2)
                 "Failed to set bed temperature"),
   mk_world (sent w ++ [tool_request env t; bed_request env b]) (console w)).
Proof.
  intros Hup1 Hst Hup2.
  unfold set_temperature, HEADERS. unfold_monad. cbn.
  fold (api_headers env). fold (tool_request env t).
  rewrite Hup1. cbn. rewrite Hst. cbn.
  fold (api_headers env). fold (bed_request env b).
  rewrite Hup2. cbn. rewrite <- app_assoc. cbn.
  now destruct (status_code r2 =? 204).
Qed.

(** A printer that accepts the hotend target and refuses the bed target. *)
Lemma set_temperature_bed_after_hotend_witness :
  let up (history : list request) (req : request) :=
    match history with
    | [] => Sample.printer 204 JNone
    | _ => Sample.printer 409 JNone
    end in
  fst (set_temperature (Sample.env up)
         (mk_TemperatureControl (Some Sample.f1500) (Some Sample.f1500))
         Sample.w0) =
  Raise (HTTPException 409 "Failed to set bed temperature").
Proof.
  intros up.
  rewrite (set_temperature_bed_after_hotend (Sample.env up) Sample.w0
             Sample.f1500 Sample.f1500 _ _ eq_refl eq_refl eq_refl).
  reflexivity.
Defined.

(** * Further properties of the webhook and of the reads it calls *)

Lemma all_str_map (ss : list string) : all_str (map JStr ss) = Some ss.
Proof. induction ss as [|a ss IH]; simpl; [reflexivity | now rewrite IH]. Qed.

Lemma list_files_ok
  (env : Env) (w : world) (r : response) (d : list (string * json))
  (items ns : list json) :
  upstream env (sent w) (files_request env) = Responds r ->
  status_code r = 200 ->
  json_result r = inr (JDict d) ->
  assoc "files" d = Some (JList items) ->
  Forall2 names items ns ->
  list_files env w =
  (Ret (JDict [("files"%string, JList ns)]), after w (files_request env)).
Proof.
  intros Hup Hst Hj Hf Hn.
  unfold list_files, HEADERS. unfold_monad.
  fold (files_request env). rewrite Hup. cbn. rewrite Hst, Hj. cbn.
  rewrite assoc_existsb, Hf. cbn. rewrite (names_of_all _ _ Hn). reflexivity.
Qed.

(** X22.  A webhook call whose form has no [Body] field fails before
    anything is sent: the [AttributeError] of calling [lower] on [None]
    escapes and the route answers 500. *)
Theorem webhook_without_body
  (env : Env) (form_data : list (string * string)) (w : world) :
  form_get "Body" form_data = None ->
  whatsapp_webhook env form_data w =
  (Raise (AttributeError "'NoneType' object has no attribute 'lower'"), w)
  /\ http_status (fst (whatsapp_webhook env form_data w)) = 500.
Proof.
  intros H. unfold whatsapp_webhook. rewrite H. split; reflexivity.
Qed.

Lemma webhook_without_body_witness :
  http_status
    (fst (whatsapp_webhook (Sample.env (Sample.always Sample.refused))
            [("From", "whatsapp:+15550100")]%string Sample.w0)) = 500.
Proof.
  apply (webhook_without_body (Sample.env (Sample.always Sample.refused))
           [("From", "whatsapp:+15550100")]%string Sample.w0).
  reflexivity.
Defined.

(** X23.  End to end for the file listing: a message that contains "files"
    and not "status" (up to case), against a printer whose listing gives a
    text name for every entry, is answered with "Available Files: " and the
    names joined by ", " in listing order, after the single request to
    [/files]. *)
Theorem webhook_lists_files
  (env : Env) (form_data : list (string * string)) (body : string)
  (w : world) (r : response) (d : list (string * json))
  (items : list json) (ss : list string) :
  form_get "Body" form_data = Some body ->
  ~ contains_ci "status" body -> contains_ci "files" body ->
  upstream env (sent w) (files_request env) = Responds r ->
  status_code r = 200 ->
  json_result r = inr (JDict d) ->
  assoc "files" d = Some (JList items) ->
  Forall2 names items (map JStr ss) ->
  whatsapp_webhook env form_data w =
  (Ret (twiml_str env [("Available Files: " ++ PyStr.join ", " ss)%string]),
   after w (files_request env)).
Proof.
  intros Hbody Hns Hf Hup Hst Hj Hd Hn.
  unfold whatsapp_webhook. rewrite Hbody.
  destruct (PyStr.str_in "status" _) eqn:Es.
  { apply (keyword_test "status" body eq_refl eq_refl) in Es. contradiction. }
  apply (keyword_test "files" body eq_refl eq_refl) in Hf. rewrite Hf.
  unfold bind. rewrite (list_files_ok env w r d items _ Hup Hst Hj Hd Hn).
  unfold lift, ret. cbn. now rewrite all_str_map.
Qed.

Lemma webhook_lists_files_witness :
  let env :=
    Sample.env (Sample.always (Sample.printer 200
      (JDict [("files"%string,
               JList [JDict [("name"%string, JStr "cube.gcode")];
                      JDict [("name"%string, JStr "benchy.gcode")]])]))) in
  fst (whatsapp_webhook env [("Body", "Files?")]%string Sample.w0) =
  Ret (Sample.xml_declaration ++
       "<Response><Message>Available Files: cube.gcode, benchy.gcode</Message></Response>")%string.
Proof.
  intros env.
  assert (Hns : ~ contains_ci "status" "Files?").
  { intros H. apply (keyword_test "status" "Files?" eq_refl eq_refl) in H.
    discriminate H. }
  assert (Hf : contains_ci "files" "Files?").
  { exists EmptyString, "Files"%string, "?"%string. split; reflexivity. }
  rewrite (webhook_lists_files env [("Body", "Files?")]%string "Files?"
             Sample.w0 _ _ _ ["cube.gcode"; "benchy.gcode"]%string
             eq_refl Hns Hf eq_refl eq_refl eq_refl eq_refl).
  - reflexivity.
  - repeat constructor; eexists; split; reflexivity.
Defined.

(** The state after each of the two reads, on every path. *)
Lemma get_printer_status_world (env : Env) (w : world) :
  snd (get_printer_status env w) = after w (printer_request env).
Proof.
  unfold get_printer_status, printer_request, after, HEADERS. unfold_monad.
  destruct (upstream env (sent w) _) as [r | k msg]; cbn; [| reflexivity].
  destruct (status_code r =? 200); cbn; [| reflexivity].
  destruct (json_result r) as [err | data]; cbn;
    [destruct (is_RequestException err); reflexivity |].
  destruct (getitem data "state") as [err | st]; cbn;
    [destruct (is_RequestException err); reflexivity |].
  destruct (getitem st "text") as [err | txt]; cbn;
    [destruct (is_RequestException err); reflexivity |].
  destruct (getitem data "temperature") as [err | temp]; cbn;
    [destruct (is_RequestException err); reflexivity |].
  destruct (PrinterState_init env txt temp) as [err | ps]; cbn;
    [destruct (is_RequestException err); reflexivity | reflexivity].
Qed.

Lemma list_files_world (env : Env) (w : world) :
  snd (list_files env w) = after w (files_request env).
Proof.
  unfold list_files, files_request, after, HEADERS. unfold_monad.
  destruct (upstream env (sent w) _) as [r | k msg]; cbn; [| reflexivity].
  destruct (status_code r =? 200); cbn; [| reflexivity].
  destruct (json_result r) as [err | data]; cbn;
    [destruct (is_RequestException err); reflexivity |].
  destruct (py_in "files" data) as [err | [|]]; cbn;
    [destruct (is_RequestException err); reflexivity | | reflexivity].
  destruct (getitem data "files") as [err | fs]; cbn;
    [destruct (is_RequestException err); reflexivity |].
  destruct (py_iter fs) as [err | items]; cbn;
    [destruct (is_RequestException err); reflexivity |].
  destruct (names_of items) as [err | ns]; cbn;
    [destruct (is_RequestException err); reflexivity | reflexivity].
Qed.

(** X24.  Whatever the printer answers, and on every path through the two
    reads, [get_printer_status] and [list_files] send exactly one request
    each and write nothing to the console. *)
Theorem printer_reads_one_request (env : Env) (w : world) :
  snd (get_printer_status env w) = after w (printer_request env) /\
  snd (list_files env w) = after w (files_request env).
Proof.
  split; [apply get_printer_status_world | apply list_files_world].
Qed.

(** X25.  A 200 answer whose body [.json()] cannot parse makes both reads
    answer 500, whichever exception the parser raises: a request error is
    converted by the handler, anything else escapes it. *)
Theorem printer_reads_unparsable_body
  (env : Env) (w : world) (r : response) (err : exn) :
  status_code r = 200 ->
  json_result r = inl err ->
  (forall c d, err <> HTTPException c d) ->
  (upstream env (sent w) (printer_request env) = Responds r ->
   http_status (fst (get_printer_status env w)) = 500)
  /\
  (upstream env (sent w) (files_request env) = Responds r ->
   http_status (fst (list_files env w)) = 500).
Proof.
  intros Hst Hj Hne. split; intros Hup.
  - unfold get_printer_status, HEADERS. unfold_monad.
    fold (printer_request env). rewrite Hup. cbn. rewrite Hst, Hj. cbn.
    destruct err as [? ? | c dt | ? | ? | ? | ? | ? | ?]; cbn; try reflexivity.
    now destruct (Hne c dt).
  - unfold list_files, HEADERS. unfold_monad.
    fold (files_request env). rewrite Hup. cbn. rewrite Hst, Hj. cbn.
    destruct err as [? ? | c dt | ? | ? | ? | ? | ? | ?]; cbn; try reflexivity.
    now destruct (Hne c dt).
Qed.

Lemma printer_reads_unparsable_body_witness :
  let r := mk_response 200 (Some "text/html"%string) [] None
             (inl (RequestException JSONDecodeError "Expecting value")) in
  http_status
    (fst (list_files (Sample.env (Sample.always (Responds r))) Sample.w0))
  = 500.
Proof.
  intros r.
  apply (proj2 (printer_reads_unparsable_body
                  (Sample.env (Sample.always (Responds r))) Sample.w0 r
                  (RequestException JSONDecodeError "Expecting value")
                  eq_refl eq_refl ltac:(discriminate))).
  reflexivity.
Defined.

(** X26.  A "status" message while the printer API refuses: the webhook
    produces no reply text; it fails with the printer's own status code and
    the detail of [get_printer_status], after the one request. *)
Theorem webhook_passes_on_printer_refusal
  (env : Env) (form_data : list (string * string)) (body : string)
  (w : world) (r : response) :
  form_get "Body" form_data = Some body ->
  contains_ci "status" body ->
  upstream env (sent w) (printer_request env) = Responds r ->
  status_code r <> 200 ->
  whatsapp_webhook env form_data w =
  (Raise (HTTPException (status_code r) "Failed to fetch data from OctoPrint"),
   after w (printer_request env)).
Proof.
  intros Hbody Hs Hup Hst. apply Z.eqb_neq in Hst.
  apply (keyword_test "status" body eq_refl eq_refl) in Hs.
  rewrite (webhook_on_status env form_data body w Hbody Hs).
  unfold get_printer_status, HEADERS. unfold_monad.
  fold (printer_request env). rewrite Hup. cbn. rewrite Hst. reflexivity.
Qed.

Lemma webhook_passes_on_printer_refusal_witness :
  let env := Sample.env (Sample.always (Sample.printer 409 JNone)) in
  http_status
    (fst (whatsapp_webhook env [("Body", "status")]%string Sample.w0)) = 409.
Proof.
  intros env.
  assert (Hs : contains_ci "status" "status").
  { exists EmptyString, "status"%string, EmptyString. split; reflexivity. }
  rewrite (webhook_passes_on_printer_refusal env [("Body", "status")]%string
             "status" Sample.w0 _ eq_refl Hs eq_refl).
  - reflexivity.
  - simpl. lia.
Defined.

(** * The webhook against the printer's answers *)

Lemma get_printer_status_ok
  (env : Env) (w : world) (r : response)
  (d sd : list (string * json)) (txt temp : json) (ps : PrinterState) :
  upstream env (sent w) (printer_request env) = Responds r ->
  status_code r = 200 ->
  json_result r = inr (JDict d) ->
  assoc "state" d = Some (JDict sd) ->
  assoc "text" sd = Some txt ->
  assoc "temperature" d = Some temp ->
  PrinterState_init env txt temp = inr ps ->
  get_printer_status env w = (Ret ps, after w (printer_request env)).
Proof.
  intros Hup Hst Hj Hs Ht Hq Hv.
  unfold get_printer_status, HEADERS. unfold_monad.
  fold (printer_request env). rewrite Hup. cbn.
  rewrite Hst, Hj. cbn. rewrite Hs. cbn. rewrite Ht, Hq. cbn.
  rewrite Hv. reflexivity.
Qed.

(** C7.  With a [Body] in the form, the webhook answers by what the text
    contains, up to case.

    - "status": it sends the one request [GET /printer]; when the printer
      API answers 200 with [state.text] and [temperature], the reply is
      "Printer Status: " and that state, a line break, "Temperatures: " and
      those temperatures.
    - otherwise "files": it sends the one request [GET /files]; when the
      printer API answers 200 with a [files] list whose entries carry text
      names, the reply is "Available Files: " and these names in listing
      order, joined by ", ".
    - otherwise: the reply is the fixed help message and nothing is sent. *)
Theorem webhook_dispatch
  (env : Env) (form_data : list (string * string)) (body : string)
  (w : world) :
  form_get "Body" form_data = Some body ->
  let run := whatsapp_webhook env form_data w in
  (contains_ci "status" body ->
   snd run = after w (printer_request env) /\
   forall r d sd txt temp printer_status,
     upstream env (sent w) (printer_request env) = Responds r ->
     status_code r = 200 ->
     json_result r = inr (JDict d) ->
     assoc "state" d = Some (JDict sd) ->
     assoc "text" sd = Some txt ->
     assoc "temperature" d = Some temp ->
     PrinterState_init env txt temp = inr printer_status ->
     fst run =
     Ret (twiml_str env
            [("Printer Status: " ++ state printer_status
              ++ String "010" "Temperatures: "
              ++ repr_dict env (temperature printer_status))%string]))
  /\
  (~ contains_ci "status" body -> contains_ci "files" body ->
   snd run = after w (files_request env) /\
   forall r d items ss,
     upstream env (sent w) (files_request env) = Responds r ->
     status_code r = 200 ->
     json_result r = inr (JDict d) ->
     assoc "files" d = Some (JList items) ->
     Forall2 names items (map JStr ss) ->
     fst run =
     Ret (twiml_str env
            [("Available Files: " ++ PyStr.join ", " ss)%string]))
  /\
  (~ contains_ci "status" body -> ~ contains_ci "files" body ->
   run =
   (Ret (twiml_str env
           ["Send 'status' to get printer status or 'files' to list available files."%string]),
    w)).
Proof.
  intros Hbody run. subst run.
  pose proof (keyword_test "status" body eq_refl eq_refl) as Hs.
  pose proof (keyword_test "files" body eq_refl eq_refl) as Hf.
  unfold whatsapp_webhook. rewrite Hbody.
  destruct (PyStr.str_in "status" _) eqn:Es.
  - split; [| split]; [| intros Hn; now destruct Hn; apply Hs ..].
    intros _. unfold bind, ret. split.
    + rewrite <- get_printer_status_world.
      now destruct (get_printer_status env w) as [[ps | err] w'].
    + intros r d sd txt temp ps Hup Hst Hj Hd Ht Hq Hv.
      now rewrite (get_printer_status_ok env w r d sd txt temp ps
                     Hup Hst Hj Hd Ht Hq Hv).
  - assert (Hns : ~ contains_ci "status" body)
      by (intros H; apply Hs in H; congruence).
    split; [intros H; contradiction |].
    destruct (PyStr.str_in "files" _) eqn:Ef.
    + split; [| intros _ Hn; now destruct Hn; apply Hf].
      intros _ _. unfold bind. split.
      * rewrite <- list_files_world.
        destruct (list_files env w) as [[files | err] w'] eqn:El;
          [| reflexivity].
        destruct (list_files_shape _ _ _ _ El) as [ns ->].
        unfold lift, ret, raise. cbn.
        now destruct (all_str ns).
      * intros r d items ss Hup Hst Hj Hd Hn.
        rewrite (list_files_ok env w r d items _ Hup Hst Hj Hd Hn).
        unfold lift, ret. cbn. now rewrite all_str_map.
    + split; [intros _ H; apply Hf in H; congruence |].
      intros _ _. reflexivity.
Qed.

(** The three branches run against a printer that answers both reads. *)
Lemma webhook_dispatch_witness :
  let answer :=
    JDict [("state"%string, JDict [("text"%string, JStr "Operational")]);
           ("temperature"%string, JDict []);
           ("files"%string,
            JList [JDict [("name"%string, JStr "cube.gcode")];
                   JDict [("name"%string, JStr "a<b.gcode")]])] in
  let env := Sample.env (Sample.always (Sample.printer 200 answer)) in
  let ask (text : string) :=
    whatsapp_webhook env
      [("From", "whatsapp:+15550100"); ("Body", text)]%string Sample.w0 in
  ask " What is the STATUS? "%string =
  (Ret (String.concat EmptyString
          [Sample.xml_declaration;
           "<Response><Message>Printer Status: Operational";
           String "010" "Temperatures: {}</Message></Response>"]%string),
   after Sample.w0 (printer_request env))
  /\
  ask "Files?"%string =
  (Ret (Sample.xml_declaration ++
        "<Response><Message>Available Files: cube.gcode, a&lt;b.gcode</Message></Response>")%string,
   after Sample.w0 (files_request env))
  /\
  ask "hello"%string =
  (Ret (Sample.xml_declaration ++
        "<Response><Message>Send 'status' to get printer status or 'files' to list available files.</Message></Response>")%string,
   Sample.w0).
Proof.
  intros answer env ask.
  assert (Hs : contains_ci "status" " What is the STATUS? ").
  { exists " What is the "%string, "STATUS"%string, "? "%string.
    split; reflexivity. }
  assert (Hns : forall text kw,
             PyStr.str_in kw (PyStr.strip (PyStr.lower text)) = false ->
             no_space kw = true -> PyStr.lower kw = kw ->
             ~ contains_ci kw text).
  { intros text kw E Hk Hl H. apply (keyword_test kw text Hk Hl) in H.
    congruence. }
  assert (Hf : contains_ci "files" "Files?").
  { exists EmptyString, "Files"%string, "?"%string. split; reflexivity. }
  split; [| split].
  - destruct (proj1 (webhook_dispatch env
                       [("From", "whatsapp:+15550100");
                        ("Body", " What is the STATUS? ")]%string
                       " What is the STATUS? " Sample.w0 eq_refl) Hs)
      as [Hw Hr].
    specialize (Hr _ _ _ _ _ _ eq_refl eq_refl eq_refl eq_refl eq_refl
                  eq_refl eq_refl).
    apply injective_projections; [exact Hr | exact Hw].
  - destruct (proj1 (proj2 (webhook_dispatch env
                              [("From", "whatsapp:+15550100");
                               ("Body", "Files?")]%string
                              "Files?" Sample.w0 eq_refl))
                (Hns "Files?"%string "status"%string eq_refl eq_refl eq_refl)
                Hf)
      as [Hw Hr].
    specialize (Hr _ _ _ ["cube.gcode"; "a<b.gcode"]%string
                  eq_refl eq_refl eq_refl eq_refl).
    apply injective_projections; [apply Hr | exact Hw].
    repeat constructor; eexists; split; reflexivity.
  - apply (proj2 (proj2 (webhook_dispatch env
                           [("From", "whatsapp:+15550100");
                            ("Body", "hello")]%string
                           "hello" Sample.w0 eq_refl))).
    + apply Hns; reflexivity.
    + apply Hns; reflexivity.
Defined.
